(** * VmxRegions: allocation of the VMX regions of a logical processor

    A shallow embedding of [hprdbghv/code/vmm/vmx/VmxRegions.c]: the VMXON
    and VMCS region allocators, the VMM stack, MSR bitmap and I/O bitmap
    allocators, and the prober that builds the bitmap of MSRs whose read
    raises #GP.

    The C functions run against a flat byte-addressed memory, a pool
    allocator, the processor's MSRs and the [vmxon] instruction.  They are
    embedded as computations in a small monad that threads the world,
    records what the call did in a trace, and can raise a structured
    exception (which [__try]/[__except] catches). *)

From Stdlib Require Import ZArith Lia List.
From stdpp Require Import gmap strings list fin_maps.

Local Open Scope Z_scope.

(** ** Machine integers *)

Definition wrap64 (x : Z) : Z := x mod 2 ^ 64.
Definition wrap8 (x : Z) : Z := x mod 2 ^ 8.

Definition NULL : Z := 0.

(** ** Constants of pch.h *)

(** Modelled from the spec: the macro ALIGNMENT_PAGE_SIZE is declared
    outside this file; the spec fixes the page size to 4096. *)
Definition ALIGNMENT_PAGE_SIZE : Z := 4096.

(** Modelled from the spec: the macro PAGE_SIZE is declared outside this
    file; every one-page bitmap is exactly 4096 bytes. *)
Definition PAGE_SIZE : Z := 4096.

(** The index of the capability register; the source logs it as
    "IA32_VMX_BASIC - MSR 0x480". *)
Definition IA32_VMX_BASIC : Z := 0x480.

(** DISPATCH_LEVEL of the Windows kernel headers. *)
Definition DISPATCH_LEVEL : Z := 2.

(** ** The platform

    What the processor and the build configuration supply: the MSR read
    primitive (a value, or a hardware fault), the status the [vmxon]
    instruction answers for a physical address, the virtual-to-physical
    translation, and the region sizes (macros VMXON_SIZE, VMCS_SIZE and
    VMM_STACK_SIZE, declared outside this file). *)

Record Platform := {
  readmsr : Z -> option Z;
  vmx_on : Z -> Z;
  VirtualAddressToPhysicalAddress : Z -> Z;
  VMXON_SIZE : Z;
  VMCS_SIZE : Z;
  VMM_STACK_SIZE : Z
}.

(** ** The world *)

(** [mem] is the byte-addressed memory; [allocs] is the script of the
    platform memory service: the addresses it hands out on the next
    requests, [NULL] for a request it cannot serve (and for every request
    once the script is exhausted); [irql] is the current interrupt request
    level. *)
Record World := {
  mem : gmap Z Z;
  allocs : list Z;
  irql : Z
}.

Definition set_mem (m : gmap Z Z) (w : World) : World :=
  {| mem := m; allocs := allocs w; irql := irql w |}.

Definition set_allocs (l : list Z) (w : World) : World :=
  {| mem := mem w; allocs := l; irql := irql w |}.

Definition set_irql (q : Z) (w : World) : World :=
  {| mem := mem w; allocs := allocs w; irql := q |}.

(** What a call does that its caller can observe besides its result. *)
Inductive Event :=
| EvAllocContiguous (size ptr : Z)
| EvAllocPool (size ptr : Z)
| EvReadMsr (index : Z) (result : option Z)
| EvVmxOn (pa status : Z)
| EvRaiseIrql (old : Z)
| EvLogError (msg : string) (args : list Z)
| EvLogDebug (msg : string) (args : list Z).

(** ** The monad: state, trace and structured exceptions *)

Inductive Outcome (A : Type) :=
| Ret (a : A) (w : World)
| Raise (w : World).

Arguments Ret {A} a w.
Arguments Raise {A} w.

Record Run (A : Type) := mkRun { trace : list Event; outcome : Outcome A }.

Arguments mkRun {A} trace outcome.
Arguments trace {A} r.
Arguments outcome {A} r.

Definition M (A : Type) : Type := World -> Run A.

Definition ret {A} (a : A) : M A := fun w => mkRun [] (Ret a w).

Definition bind {A B} (m : M A) (k : A -> M B) : M B := fun w =>
  let r := m w in
  match outcome r with
  | Ret a w1 => let r1 := k a w1 in mkRun (trace r ++ trace r1) (outcome r1)
  | Raise w1 => mkRun (trace r) (Raise w1)
  end.

Notation "x <- m ;; k" := (bind m (fun x => k))
  (at level 100, m at next level, right associativity).
Notation "m ;;; k" := (bind m (fun _ => k))
  (at level 100, right associativity).

(** [__try { body } __except (EXCEPTION_EXECUTE_HANDLER) { handler }] *)
Definition try_except {A} (body : M A) (handler : M A) : M A := fun w =>
  let r := body w in
  match outcome r with
  | Ret a w1 => r
  | Raise w1 => let r1 := handler w1 in mkRun (trace r ++ trace r1) (outcome r1)
  end.

Definition emit (e : Event) : M unit := fun w => mkRun [e] (Ret tt w).

(** [for (size_t i = start; ...; ++i) body], run for [n] iterations. *)
Fixpoint for_loop (i : Z) (n : nat) (body : Z -> M unit) : M unit :=
  match n with
  | O => ret tt
  | S k => body i ;;; for_loop (i + 1) k body
  end.

(** ** Memory *)

(** An address the map does not hold reads as the byte 0. *)
Definition load8 (m : gmap Z Z) (a : Z) : Z := default 0 (m !! a).

Definition store8 (m : gmap Z Z) (a v : Z) : gmap Z Z := <[a := wrap8 v]> m.

(** Little-endian store and load of [n] bytes. *)
Fixpoint store_le (m : gmap Z Z) (a : Z) (n : nat) (v : Z) : gmap Z Z :=
  match n with
  | O => m
  | S k => store_le (store8 m a v) (a + 1) k (Z.shiftr v 8)
  end.

Fixpoint load_le (m : gmap Z Z) (a : Z) (n : nat) : Z :=
  match n with
  | O => 0
  | S k => Z.lor (load8 m a) (Z.shiftl (load_le m (a + 1) k) 8)
  end.

Definition store64 (m : gmap Z Z) (a v : Z) : gmap Z Z := store_le m a 8 v.
Definition load64 (m : gmap Z Z) (a : Z) : Z := load_le m a 8.

Fixpoint zero_bytes (m : gmap Z Z) (a : Z) (n : nat) : gmap Z Z :=
  match n with
  | O => m
  | S k => zero_bytes (<[a := 0]> m) (a + 1) k
  end.

(** ** Primitives of the platform, as computations *)

Definition LogError (msg : string) (args : list Z) : M unit :=
  emit (EvLogError msg args).

Definition LogDebugInfo (msg : string) (args : list Z) : M unit :=
  emit (EvLogDebug msg args).

Definition KeGetCurrentIrql : M Z := fun w => mkRun [] (Ret (irql w) w).

Definition KeRaiseIrqlToDpcLevel : M unit := fun w =>
  mkRun [EvRaiseIrql (irql w)] (Ret tt (set_irql DISPATCH_LEVEL w)).

(** The next answer of the memory service. *)
Definition next_alloc (w : World) : Z := hd NULL (allocs w).

Definition ExAllocatePoolWithTag (size : Z) : M Z := fun w =>
  mkRun [EvAllocPool size (next_alloc w)]
        (Ret (next_alloc w) (set_allocs (tl (allocs w)) w)).

(** Modelled from the spec: CrsAllocateContiguousZeroedMemory is defined
    outside this file; the spec gives it as
    [AllocateContiguousZeroed(size) -> buffer | failure], physically
    contiguous and zero-filled. *)
Definition CrsAllocateContiguousZeroedMemory (size : Z) : M Z := fun w =>
  let p := next_alloc w in
  let w1 := set_allocs (tl (allocs w)) w in
  mkRun [EvAllocContiguous size p]
        (Ret p (if p =? NULL then w1
                else set_mem (zero_bytes (mem w1) p (Z.to_nat size)) w1)).

Definition RtlZeroMemory (p size : Z) : M unit := fun w =>
  mkRun [] (Ret tt (set_mem (zero_bytes (mem w) p (Z.to_nat size)) w)).

(** [*(UINT64 * )p = v] *)
Definition write_UINT64 (p v : Z) : M unit := fun w =>
  mkRun [] (Ret tt (set_mem (store64 (mem w) p v) w)).

(** [__readmsr(index)]: the value, or the fault raised as a structured
    exception. *)
Definition __readmsr (hw : Platform) (index : Z) : M Z := fun w =>
  match readmsr hw index with
  | Some v => mkRun [EvReadMsr index (Some v)] (Ret v w)
  | None => mkRun [EvReadMsr index None] (Raise w)
  end.

(** [__vmx_on(&pa)]: the UINT8 status of the instruction. *)
Definition __vmx_on (hw : Platform) (pa : Z) : M Z := fun w =>
  let st := wrap8 (vmx_on hw pa) in
  mkRun [EvVmxOn pa st] (Ret st w).

(** Modelled from the spec: SetBit is defined outside this file; the spec
    has the prober "set the corresponding bit" of a bitmap of 4096 bits in
    512 bytes: bit [i] is bit [i mod 8] of the byte at offset [i / 8]. *)
Definition set_bit (m : gmap Z Z) (i p : Z) : gmap Z Z :=
  store8 m (p + i / 8) (Z.lor (load8 m (p + i / 8)) (Z.shiftl 1 (i mod 8))).

Definition SetBit (i p : Z) : M unit := fun w =>
  mkRun [] (Ret tt (set_mem (set_bit (mem w) i p) w)).

(** Modelled from the spec: the reader's side of [SetBit], "queryable by
    index". *)
Definition TestBit (m : gmap Z Z) (i p : Z) : bool :=
  Z.testbit (load8 m (p + i / 8)) (i mod 8).

(** ** The processor context *)

(** The fields of VIRTUAL_MACHINE_STATE this file touches; the structure is
    declared outside this file, and [OtherFields] stands for all its
    remaining fields. *)
Record VIRTUAL_MACHINE_STATE (R : Type) := {
  VmxonRegionPhysicalAddress : Z;
  VmxonRegionVirtualAddress : Z;
  VmcsRegionPhysicalAddress : Z;
  VmcsRegionVirtualAddress : Z;
  VmmStack : Z;
  MsrBitmapVirtualAddress : Z;
  MsrBitmapPhysicalAddress : Z;
  IoBitmapVirtualAddressA : Z;
  IoBitmapPhysicalAddressA : Z;
  IoBitmapVirtualAddressB : Z;
  IoBitmapPhysicalAddressB : Z;
  OtherFields : R
}.

Arguments VmxonRegionPhysicalAddress {R} _.
Arguments VmxonRegionVirtualAddress {R} _.
Arguments VmcsRegionPhysicalAddress {R} _.
Arguments VmcsRegionVirtualAddress {R} _.
Arguments VmmStack {R} _.
Arguments MsrBitmapVirtualAddress {R} _.
Arguments MsrBitmapPhysicalAddress {R} _.
Arguments IoBitmapVirtualAddressA {R} _.
Arguments IoBitmapPhysicalAddressA {R} _.
Arguments IoBitmapVirtualAddressB {R} _.
Arguments IoBitmapPhysicalAddressB {R} _.
Arguments OtherFields {R} _.

Section Context_updates.
Context {R : Type}.
Implicit Type s : VIRTUAL_MACHINE_STATE R.

Definition set_VmxonRegionPhysicalAddress (v : Z) s : VIRTUAL_MACHINE_STATE R :=
  {| VmxonRegionPhysicalAddress := v;
     VmxonRegionVirtualAddress := VmxonRegionVirtualAddress s;
     VmcsRegionPhysicalAddress := VmcsRegionPhysicalAddress s;
     VmcsRegionVirtualAddress := VmcsRegionVirtualAddress s;
     VmmStack := VmmStack s;
     MsrBitmapVirtualAddress := MsrBitmapVirtualAddress s;
     MsrBitmapPhysicalAddress := MsrBitmapPhysicalAddress s;
     IoBitmapVirtualAddressA := IoBitmapVirtualAddressA s;
     IoBitmapPhysicalAddressA := IoBitmapPhysicalAddressA s;
     IoBitmapVirtualAddressB := IoBitmapVirtualAddressB s;
     IoBitmapPhysicalAddressB := IoBitmapPhysicalAddressB s;
     OtherFields := OtherFields s |}.

Definition set_VmxonRegionVirtualAddress (v : Z) s : VIRTUAL_MACHINE_STATE R :=
  {| VmxonRegionPhysicalAddress := VmxonRegionPhysicalAddress s;
     VmxonRegionVirtualAddress := v;
     VmcsRegionPhysicalAddress := VmcsRegionPhysicalAddress s;
     VmcsRegionVirtualAddress := VmcsRegionVirtualAddress s;
     VmmStack := VmmStack s;
     MsrBitmapVirtualAddress := MsrBitmapVirtualAddress s;
     MsrBitmapPhysicalAddress := MsrBitmapPhysicalAddress s;
     IoBitmapVirtualAddressA := IoBitmapVirtualAddressA s;
     IoBitmapPhysicalAddressA := IoBitmapPhysicalAddressA s;
     IoBitmapVirtualAddressB := IoBitmapVirtualAddressB s;
     IoBitmapPhysicalAddressB := IoBitmapPhysicalAddressB s;
     OtherFields := OtherFields s |}.

Definition set_VmcsRegionPhysicalAddress (v : Z) s : VIRTUAL_MACHINE_STATE R :=
  {| VmxonRegionPhysicalAddress := VmxonRegionPhysicalAddress s;
     VmxonRegionVirtualAddress := VmxonRegionVirtualAddress s;
     VmcsRegionPhysicalAddress := v;
     VmcsRegionVirtualAddress := VmcsRegionVirtualAddress s;
     VmmStack := VmmStack s;
     MsrBitmapVirtualAddress := MsrBitmapVirtualAddress s;
     MsrBitmapPhysicalAddress := MsrBitmapPhysicalAddress s;
     IoBitmapVirtualAddressA := IoBitmapVirtualAddressA s;
     IoBitmapPhysicalAddressA := IoBitmapPhysicalAddressA s;
     IoBitmapVirtualAddressB := IoBitmapVirtualAddressB s;
     IoBitmapPhysicalAddressB := IoBitmapPhysicalAddressB s;
     OtherFields := OtherFields s |}.

Definition set_VmcsRegionVirtualAddress (v : Z) s : VIRTUAL_MACHINE_STATE R :=
  {| VmxonRegionPhysicalAddress := VmxonRegionPhysicalAddress s;
     VmxonRegionVirtualAddress := VmxonRegionVirtualAddress s;
     VmcsRegionPhysicalAddress := VmcsRegionPhysicalAddress s;
     VmcsRegionVirtualAddress := v;
     VmmStack := VmmStack s;
     MsrBitmapVirtualAddress := MsrBitmapVirtualAddress s;
     MsrBitmapPhysicalAddress := MsrBitmapPhysicalAddress s;
     IoBitmapVirtualAddressA := IoBitmapVirtualAddressA s;
     IoBitmapPhysicalAddressA := IoBitmapPhysicalAddressA s;
     IoBitmapVirtualAddressB := IoBitmapVirtualAddressB s;
     IoBitmapPhysicalAddressB := IoBitmapPhysicalAddressB s;
     OtherFields := OtherFields s |}.

Definition set_VmmStack (v : Z) s : VIRTUAL_MACHINE_STATE R :=
  {| VmxonRegionPhysicalAddress := VmxonRegionPhysicalAddress s;
     VmxonRegionVirtualAddress := VmxonRegionVirtualAddress s;
     VmcsRegionPhysicalAddress := VmcsRegionPhysicalAddress s;
     VmcsRegionVirtualAddress := VmcsRegionVirtualAddress s;
     VmmStack := v;
     MsrBitmapVirtualAddress := MsrBitmapVirtualAddress s;
     MsrBitmapPhysicalAddress := MsrBitmapPhysicalAddress s;
     IoBitmapVirtualAddressA := IoBitmapVirtualAddressA s;
     IoBitmapPhysicalAddressA := IoBitmapPhysicalAddressA s;
     IoBitmapVirtualAddressB := IoBitmapVirtualAddressB s;
     IoBitmapPhysicalAddressB := IoBitmapPhysicalAddressB s;
     OtherFields := OtherFields s |}.

Definition set_MsrBitmapVirtualAddress (v : Z) s : VIRTUAL_MACHINE_STATE R :=
  {| VmxonRegionPhysicalAddress := VmxonRegionPhysicalAddress s;
     VmxonRegionVirtualAddress := VmxonRegionVirtualAddress s;
     VmcsRegionPhysicalAddress := VmcsRegionPhysicalAddress s;
     VmcsRegionVirtualAddress := VmcsRegionVirtualAddress s;
     VmmStack := VmmStack s;
     MsrBitmapVirtualAddress := v;
     MsrBitmapPhysicalAddress := MsrBitmapPhysicalAddress s;
     IoBitmapVirtualAddressA := IoBitmapVirtualAddressA s;
     IoBitmapPhysicalAddressA := IoBitmapPhysicalAddressA s;
     IoBitmapVirtualAddressB := IoBitmapVirtualAddressB s;
     IoBitmapPhysicalAddressB := IoBitmapPhysicalAddressB s;
     OtherFields := OtherFields s |}.

Definition set_MsrBitmapPhysicalAddress (v : Z) s : VIRTUAL_MACHINE_STATE R :=
  {| VmxonRegionPhysicalAddress := VmxonRegionPhysicalAddress s;
     VmxonRegionVirtualAddress := VmxonRegionVirtualAddress s;
     VmcsRegionPhysicalAddress := VmcsRegionPhysicalAddress s;
     VmcsRegionVirtualAddress := VmcsRegionVirtualAddress s;
     VmmStack := VmmStack s;
     MsrBitmapVirtualAddress := MsrBitmapVirtualAddress s;
     MsrBitmapPhysicalAddress := v;
     IoBitmapVirtualAddressA := IoBitmapVirtualAddressA s;
     IoBitmapPhysicalAddressA := IoBitmapPhysicalAddressA s;
     IoBitmapVirtualAddressB := IoBitmapVirtualAddressB s;
     IoBitmapPhysicalAddressB := IoBitmapPhysicalAddressB s;
     OtherFields := OtherFields s |}.

Definition set_IoBitmapVirtualAddressA (v : Z) s : VIRTUAL_MACHINE_STATE R :=
  {| VmxonRegionPhysicalAddress := VmxonRegionPhysicalAddress s;
     VmxonRegionVirtualAddress := VmxonRegionVirtualAddress s;
     VmcsRegionPhysicalAddress := VmcsRegionPhysicalAddress s;
     VmcsRegionVirtualAddress := VmcsRegionVirtualAddress s;
     VmmStack := VmmStack s;
     MsrBitmapVirtualAddress := MsrBitmapVirtualAddress s;
     MsrBitmapPhysicalAddress := MsrBitmapPhysicalAddress s;
     IoBitmapVirtualAddressA := v;
     IoBitmapPhysicalAddressA := IoBitmapPhysicalAddressA s;
     IoBitmapVirtualAddressB := IoBitmapVirtualAddressB s;
     IoBitmapPhysicalAddressB := IoBitmapPhysicalAddressB s;
     OtherFields := OtherFields s |}.

Definition set_IoBitmapPhysicalAddressA (v : Z) s : VIRTUAL_MACHINE_STATE R :=
  {| VmxonRegionPhysicalAddress := VmxonRegionPhysicalAddress s;
     VmxonRegionVirtualAddress := VmxonRegionVirtualAddress s;
     VmcsRegionPhysicalAddress := VmcsRegionPhysicalAddress s;
     VmcsRegionVirtualAddress := VmcsRegionVirtualAddress s;
     VmmStack := VmmStack s;
     MsrBitmapVirtualAddress := MsrBitmapVirtualAddress s;
     MsrBitmapPhysicalAddress := MsrBitmapPhysicalAddress s;
     IoBitmapVirtualAddressA := IoBitmapVirtualAddressA s;
     IoBitmapPhysicalAddressA := v;
     IoBitmapVirtualAddressB := IoBitmapVirtualAddressB s;
     IoBitmapPhysicalAddressB := IoBitmapPhysicalAddressB s;
     OtherFields := OtherFields s |}.

Definition set_IoBitmapVirtualAddressB (v : Z) s : VIRTUAL_MACHINE_STATE R :=
  {| VmxonRegionPhysicalAddress := VmxonRegionPhysicalAddress s;
     VmxonRegionVirtualAddress := VmxonRegionVirtualAddress s;
     VmcsRegionPhysicalAddress := VmcsRegionPhysicalAddress s;
     VmcsRegionVirtualAddress := VmcsRegionVirtualAddress s;
     VmmStack := VmmStack s;
     MsrBitmapVirtualAddress := MsrBitmapVirtualAddress s;
     MsrBitmapPhysicalAddress := MsrBitmapPhysicalAddress s;
     IoBitmapVirtualAddressA := IoBitmapVirtualAddressA s;
     IoBitmapPhysicalAddressA := IoBitmapPhysicalAddressA s;
     IoBitmapVirtualAddressB := v;
     IoBitmapPhysicalAddressB := IoBitmapPhysicalAddressB s;
     OtherFields := OtherFields s |}.

Definition set_IoBitmapPhysicalAddressB (v : Z) s : VIRTUAL_MACHINE_STATE R :=
  {| VmxonRegionPhysicalAddress := VmxonRegionPhysicalAddress s;
     VmxonRegionVirtualAddress := VmxonRegionVirtualAddress s;
     VmcsRegionPhysicalAddress := VmcsRegionPhysicalAddress s;
     VmcsRegionVirtualAddress := VmcsRegionVirtualAddress s;
     VmmStack := VmmStack s;
     MsrBitmapVirtualAddress := MsrBitmapVirtualAddress s;
     MsrBitmapPhysicalAddress := MsrBitmapPhysicalAddress s;
     IoBitmapVirtualAddressA := IoBitmapVirtualAddressA s;
     IoBitmapPhysicalAddressA := IoBitmapPhysicalAddressA s;
     IoBitmapVirtualAddressB := IoBitmapVirtualAddressB s;
     IoBitmapPhysicalAddressB := v;
     OtherFields := OtherFields s |}.
End Context_updates.

(** ** The functions of VmxRegions.c *)

(** [(ULONG_PTR)(a + ALIGNMENT_PAGE_SIZE - 1) & ~(ALIGNMENT_PAGE_SIZE - 1)],
    in 64-bit unsigned arithmetic. *)
Definition align_page (a : Z) : Z :=
  Z.land (wrap64 (a + ALIGNMENT_PAGE_SIZE - 1))
         (wrap64 (Z.lnot (ALIGNMENT_PAGE_SIZE - 1))).

(** Modelled from the spec: the bit-field IA32_VMX_BASIC_REGISTER.VmcsRevisionId
    is declared outside this file; it is the low 31 bits of the 64-bit
    capability word. *)
Definition VmcsRevisionId (AsUInt : Z) : Z := Z.land AsUInt (Z.ones 31).

Section Functions.
Context {R : Type}.
Variable hw : Platform.
Implicit Type VCpu : VIRTUAL_MACHINE_STATE R.

(** The ENV_WINDOWS prologue of the two region allocators. *)
Definition raise_irql_prologue : M unit :=
  q <- KeGetCurrentIrql ;;
  if DISPATCH_LEVEL <? q then KeRaiseIrqlToDpcLevel else ret tt.

Definition VmxAllocateVmxonRegion VCpu : M (bool * VIRTUAL_MACHINE_STATE R) :=
  raise_irql_prologue ;;;
  let VmxonSize := wrap64 (2 * VMXON_SIZE hw) in
  VmxonRegion <- CrsAllocateContiguousZeroedMemory (wrap64 (VmxonSize + ALIGNMENT_PAGE_SIZE)) ;;
  if VmxonRegion =? NULL then
    LogError "Err, couldn't allocate buffer for VMXON region" [] ;;;
    ret (false, VCpu)
  else
    let VmxonRegionPhysicalAddr := VirtualAddressToPhysicalAddress hw VmxonRegion in
    let AlignedVmxonRegion := align_page VmxonRegion in
    LogDebugInfo "VMXON Region Address : %llx" [AlignedVmxonRegion] ;;;
    let AlignedVmxonRegionPhysicalAddr := align_page VmxonRegionPhysicalAddr in
    LogDebugInfo "VMXON Region Physical Address : %llx" [AlignedVmxonRegionPhysicalAddr] ;;;
    VmxBasicMsr <- __readmsr hw IA32_VMX_BASIC ;;
    LogDebugInfo "Revision Identifier (IA32_VMX_BASIC - MSR 0x480) : 0x%x"
                 [VmcsRevisionId VmxBasicMsr] ;;;
    write_UINT64 AlignedVmxonRegion (VmcsRevisionId VmxBasicMsr) ;;;
    VmxonStatus <- __vmx_on hw AlignedVmxonRegionPhysicalAddr ;;
    if negb (VmxonStatus =? 0) then
      LogError "Err, executing vmxon instruction failed with status : %d" [VmxonStatus] ;;;
      ret (false, VCpu)
    else
      let VCpu := set_VmxonRegionPhysicalAddress AlignedVmxonRegionPhysicalAddr VCpu in
      let VCpu := set_VmxonRegionVirtualAddress VmxonRegion VCpu in
      ret (true, VCpu).

Definition VmxAllocateVmcsRegion VCpu : M (bool * VIRTUAL_MACHINE_STATE R) :=
  raise_irql_prologue ;;;
  let VmcsSize := wrap64 (2 * VMCS_SIZE hw) in
  VmcsRegion <- CrsAllocateContiguousZeroedMemory (wrap64 (VmcsSize + ALIGNMENT_PAGE_SIZE)) ;;
  if VmcsRegion =? NULL then
    LogError "Err, couldn't allocate Buffer for VMCS region" [] ;;;
    ret (false, VCpu)
  else
    let VmcsPhysicalAddr := VirtualAddressToPhysicalAddress hw VmcsRegion in
    let AlignedVmcsRegion := align_page VmcsRegion in
    LogDebugInfo "VMCS region address : %llx" [AlignedVmcsRegion] ;;;
    let AlignedVmcsRegionPhysicalAddr := align_page VmcsPhysicalAddr in
    LogDebugInfo "VMCS region physical address : %llx" [AlignedVmcsRegionPhysicalAddr] ;;;
    VmxBasicMsr <- __readmsr hw IA32_VMX_BASIC ;;
    LogDebugInfo "Revision Identifier (IA32_VMX_BASIC - MSR 0x480) : 0x%x"
                 [VmcsRevisionId VmxBasicMsr] ;;;
    write_UINT64 AlignedVmcsRegion (VmcsRevisionId VmxBasicMsr) ;;;
    let VCpu := set_VmcsRegionPhysicalAddress AlignedVmcsRegionPhysicalAddr VCpu in
    let VCpu := set_VmcsRegionVirtualAddress VmcsRegion VCpu in
    ret (true, VCpu).

Definition VmxAllocateVmmStack VCpu : M (bool * VIRTUAL_MACHINE_STATE R) :=
  p <- ExAllocatePoolWithTag (VMM_STACK_SIZE hw) ;;
  let VCpu := set_VmmStack p VCpu in
  if VmmStack VCpu =? NULL then
    LogError "Err, insufficient memory in allocationg vmm stack" [] ;;;
    ret (false, VCpu)
  else
    RtlZeroMemory (VmmStack VCpu) (VMM_STACK_SIZE hw) ;;;
    LogDebugInfo "VMM Stack for logical processor : 0x%llx" [VmmStack VCpu] ;;;
    ret (true, VCpu).

Definition VmxAllocateMsrBitmap VCpu : M (bool * VIRTUAL_MACHINE_STATE R) :=
  p <- ExAllocatePoolWithTag PAGE_SIZE ;;
  let VCpu := set_MsrBitmapVirtualAddress p VCpu in
  if MsrBitmapVirtualAddress VCpu =? NULL then
    LogError "Err, insufficient memory in allocationg MSR Bitmaps" [] ;;;
    ret (false, VCpu)
  else
    RtlZeroMemory (MsrBitmapVirtualAddress VCpu) PAGE_SIZE ;;;
    let VCpu := set_MsrBitmapPhysicalAddress
                  (VirtualAddressToPhysicalAddress hw (MsrBitmapVirtualAddress VCpu)) VCpu in
    LogDebugInfo "MSR Bitmap virtual address  : 0x%llx" [MsrBitmapVirtualAddress VCpu] ;;;
    LogDebugInfo "MSR Bitmap physical address : 0x%llx" [MsrBitmapPhysicalAddress VCpu] ;;;
    ret (true, VCpu).

Definition VmxAllocateIoBitmaps VCpu : M (bool * VIRTUAL_MACHINE_STATE R) :=
  a <- ExAllocatePoolWithTag PAGE_SIZE ;;
  let VCpu := set_IoBitmapVirtualAddressA a VCpu in
  if IoBitmapVirtualAddressA VCpu =? NULL then
    LogError "Err, insufficient memory in allocationg I/O Bitmaps A" [] ;;;
    ret (false, VCpu)
  else
    RtlZeroMemory (IoBitmapVirtualAddressA VCpu) PAGE_SIZE ;;;
    let VCpu := set_IoBitmapPhysicalAddressA
                  (VirtualAddressToPhysicalAddress hw (IoBitmapVirtualAddressA VCpu)) VCpu in
    LogDebugInfo "I/O Bitmap A Virtual Address  : 0x%llx" [IoBitmapVirtualAddressA VCpu] ;;;
    LogDebugInfo "I/O Bitmap A Physical Address : 0x%llx" [IoBitmapPhysicalAddressA VCpu] ;;;
    b <- ExAllocatePoolWithTag PAGE_SIZE ;;
    let VCpu := set_IoBitmapVirtualAddressB b VCpu in
    if IoBitmapVirtualAddressB VCpu =? NULL then
      LogError "Err, insufficient memory in allocationg I/O Bitmaps B" [] ;;;
      ret (false, VCpu)
    else
      RtlZeroMemory (IoBitmapVirtualAddressB VCpu) PAGE_SIZE ;;;
      let VCpu := set_IoBitmapPhysicalAddressB
                    (VirtualAddressToPhysicalAddress hw (IoBitmapVirtualAddressB VCpu)) VCpu in
      LogDebugInfo "I/O Bitmap B virtual address  : 0x%llx" [IoBitmapVirtualAddressB VCpu] ;;;
      LogDebugInfo "I/O Bitmap B physical address : 0x%llx" [IoBitmapPhysicalAddressB VCpu] ;;;
      ret (true, VCpu).

(** One iteration of the probing loop:
    [__try { __readmsr(i); } __except (...) { SetBit(i, InvalidMsrBitmap); }] *)
Definition probe_msr (InvalidMsrBitmap i : Z) : M unit :=
  try_except (_ <- __readmsr hw i ;; ret tt) (SetBit i InvalidMsrBitmap).

Definition VmxAllocateInvalidMsrBimap : M Z :=
  InvalidMsrBitmap <- ExAllocatePoolWithTag (0x1000 / 0x8) ;;
  if InvalidMsrBitmap =? NULL then
    ret NULL
  else
    RtlZeroMemory InvalidMsrBitmap (0x1000 / 0x8) ;;;
    for_loop 0 (Z.to_nat 0x1000) (probe_msr InvalidMsrBitmap) ;;;
    ret InvalidMsrBitmap.
End Functions.

(** ** Reading a run *)

(** The BOOLEAN a call returned, if it returned. *)
Definition returned {A B} (r : Run (A * B)) : option A :=
  match outcome r with
  | Ret (b, _) _ => Some b
  | Raise _ => None
  end.

(** The status of the [vmxon] instruction a call executed, if it executed
    one. *)
Fixpoint vmxon_status (tr : list Event) : option Z :=
  match tr with
  | [] => None
  | EvVmxOn _ st :: _ => Some st
  | _ :: tr' => vmxon_status tr'
  end.

(** The MSR reads of a call, in order, each with its result. *)
Fixpoint msr_reads (tr : list Event) : list (Z * option Z) :=
  match tr with
  | [] => []
  | EvReadMsr i v :: tr' => (i, v) :: msr_reads tr'
  | _ :: tr' => msr_reads tr'
  end.

(** The diagnostics of a call, in order. *)
Fixpoint logged_errors (tr : list Event) : list (string * list Z) :=
  match tr with
  | [] => []
  | EvLogError msg args :: tr' => (msg, args) :: logged_errors tr'
  | _ :: tr' => logged_errors tr'
  end.

(** Whether the MSR read primitive faults at an index. *)
Definition faults (hw : Platform) (i : Z) : bool :=
  match readmsr hw i with
  | Some _ => false
  | None => true
  end.

(** [x] is the least multiple of the page size at or above [a]. *)
Definition least_page_multiple (a x : Z) : Prop :=
  a <= x /\ x mod 4096 = 0 /\ forall y, a <= y -> y mod 4096 = 0 -> x <= y.

(** ** The states and traces along the paths of the functions *)

Section Path_states.
Context {R : Type}.
Variable hw : Platform.
Implicit Type VCpu : VIRTUAL_MACHINE_STATE R.
Implicit Type w : World.

Definition prologue_trace w : list Event :=
  if DISPATCH_LEVEL <? irql w then [EvRaiseIrql (irql w)] else [].

Definition after_prologue w : World :=
  if DISPATCH_LEVEL <? irql w then set_irql DISPATCH_LEVEL w else w.

(** The world once the memory service has answered a request. *)
Definition after_alloc w : World := set_allocs (tl (allocs w)) w.

(** The world once a zeroed buffer of [size] bytes has been handed out. *)
Definition after_zeroed_alloc (size : Z) w : World :=
  set_mem (zero_bytes (mem w) (next_alloc w) (Z.to_nat size)) (after_alloc w).

(** The world once the revision identifier of [cap] has been written at
    the aligned start of that buffer. *)
Definition after_stamp (size cap : Z) w : World :=
  set_mem (store64 (mem (after_zeroed_alloc size w)) (align_page (next_alloc w))
                   (VmcsRevisionId cap))
          (after_zeroed_alloc size w).

Definition region_alloc_size (region_size : Z) : Z :=
  wrap64 (wrap64 (2 * region_size) + ALIGNMENT_PAGE_SIZE).

Definition vmxon_trace_allocated w : list Event :=
  let p := next_alloc w in
  [EvAllocContiguous (region_alloc_size (VMXON_SIZE hw)) p;
   EvLogDebug "VMXON Region Address : %llx" [align_page p];
   EvLogDebug "VMXON Region Physical Address : %llx"
              [align_page (VirtualAddressToPhysicalAddress hw p)]].

Definition vmxon_trace_stamped (cap : Z) w : list Event :=
  vmxon_trace_allocated w ++
  [EvReadMsr IA32_VMX_BASIC (Some cap);
   EvLogDebug "Revision Identifier (IA32_VMX_BASIC - MSR 0x480) : 0x%x"
              [VmcsRevisionId cap];
   EvVmxOn (align_page (VirtualAddressToPhysicalAddress hw (next_alloc w)))
           (wrap8 (vmx_on hw (align_page (VirtualAddressToPhysicalAddress hw (next_alloc w)))))].

Definition vmcs_trace_allocated w : list Event :=
  let p := next_alloc w in
  [EvAllocContiguous (region_alloc_size (VMCS_SIZE hw)) p;
   EvLogDebug "VMCS region address : %llx" [align_page p];
   EvLogDebug "VMCS region physical address : %llx"
              [align_page (VirtualAddressToPhysicalAddress hw p)]].

(** The answer of the memory service to the request after the next. *)
Definition second_alloc w : Z := next_alloc (after_alloc w).

Definition io_trace_A w : list Event :=
  [EvAllocPool PAGE_SIZE (next_alloc w);
   EvLogDebug "I/O Bitmap A Virtual Address  : 0x%llx" [next_alloc w];
   EvLogDebug "I/O Bitmap A Physical Address : 0x%llx"
              [VirtualAddressToPhysicalAddress hw (next_alloc w)]].

Definition io_published_A VCpu w : VIRTUAL_MACHINE_STATE R :=
  set_IoBitmapPhysicalAddressA (VirtualAddressToPhysicalAddress hw (next_alloc w))
    (set_IoBitmapVirtualAddressA (next_alloc w) VCpu).

(** The memory after [n] iterations of the probing loop from index [i]. *)
Fixpoint probed_mem (m : gmap Z Z) (p i : Z) (n : nat) : gmap Z Z :=
  match n with
  | O => m
  | S k => probed_mem (if faults hw i then set_bit m i p else m) p (i + 1) k
  end.

Definition probe_event (i : Z) : Event := EvReadMsr i (readmsr hw i).

(** The memory the prober leaves behind when its allocation succeeds. *)
Definition probed_world w : World :=
  set_mem (probed_mem (zero_bytes (mem w) (next_alloc w) (Z.to_nat (0x1000 / 0x8)))
                      (next_alloc w) 0 (Z.to_nat 0x1000))
          (after_alloc w).

End Path_states.

(** ** Concrete platforms, worlds and contexts *)

(** A processor with 4-KByte VMXON and VMCS regions and a 32-KByte VMM
    stack, whose MSR reads answer [msr] and whose vmxon answers [status]. *)
Definition stub_platform (msr : Z -> option Z) (status : Z) : Platform :=
  {| readmsr := msr;
     vmx_on := fun _ => status;
     VirtualAddressToPhysicalAddress := fun va => va - 0x10000;
     VMXON_SIZE := 4096;
     VMCS_SIZE := 4096;
     VMM_STACK_SIZE := 0x8000 |}.

(** Only the capability register is implemented; it reports revision
    identifier 0x1F. *)
Definition msr_only_vmx_basic (i : Z) : option Z :=
  if i =? IA32_VMX_BASIC then Some 0x00DA04000000001F else None.

(** Every MSR reads as 0, except index 0xC0000080, which faults. *)
Definition msr_faulting_at_C0000080 (i : Z) : option Z :=
  if i =? 0xC0000080 then None else Some 0.

Definition vmxon_succeeds : Platform := stub_platform msr_only_vmx_basic 0.
Definition vmxon_fails : Platform := stub_platform msr_only_vmx_basic 1.
Definition efer_faults : Platform := stub_platform msr_faulting_at_C0000080 0.

(** A world with an empty memory whose memory service answers [script]. *)
Definition world_with (script : list Z) : World :=
  {| mem := ∅; allocs := script; irql := 0 |}.

Definition empty_context : VIRTUAL_MACHINE_STATE unit :=
  {| VmxonRegionPhysicalAddress := NULL;
     VmxonRegionVirtualAddress := NULL;
     VmcsRegionPhysicalAddress := NULL;
     VmcsRegionVirtualAddress := NULL;
     VmmStack := NULL;
     MsrBitmapVirtualAddress := NULL;
     MsrBitmapPhysicalAddress := NULL;
     IoBitmapVirtualAddressA := NULL;
     IoBitmapPhysicalAddressA := NULL;
     IoBitmapVirtualAddressB := NULL;
     IoBitmapPhysicalAddressB := NULL;
     OtherFields := tt |}.

(** A context that still holds the address of an earlier I/O bitmap B. *)
Definition stale_context : VIRTUAL_MACHINE_STATE unit :=
  set_IoBitmapVirtualAddressB 0x5000 empty_context.

(** ** Further readings of a run *)

(** The requests a call made to the memory service, in order: the size
    asked for and the answer. *)
Fixpoint allocations (tr : list Event) : list (Z * Z) :=
  match tr with
  | [] => []
  | EvAllocContiguous size p :: tr' => (size, p) :: allocations tr'
  | EvAllocPool size p :: tr' => (size, p) :: allocations tr'
  | _ :: tr' => allocations tr'
  end.

(** The [vmxon] instructions a call executed, in order: the operand and
    the status. *)
Fixpoint vmxon_calls (tr : list Event) : list (Z * Z) :=
  match tr with
  | [] => []
  | EvVmxOn pa st :: tr' => (pa, st) :: vmxon_calls tr'
  | _ :: tr' => vmxon_calls tr'
  end.

(** The calls of KeRaiseIrqlToDpcLevel, in order, each with the IRQL it
    found. *)
Fixpoint irql_raises (tr : list Event) : list Z :=
  match tr with
  | [] => []
  | EvRaiseIrql old :: tr' => old :: irql_raises tr'
  | _ :: tr' => irql_raises tr'
  end.

(** The world a call leaves behind, whether it returned or raised. *)
Definition final_world {A} (r : Run A) : World :=
  match outcome r with
  | Ret _ w => w
  | Raise w => w
  end.

(** Every byte of the [n] bytes at [a] is zero. *)
Definition zeroed (m : gmap Z Z) (a n : Z) : Prop :=
  forall x, a <= x < a + n -> load8 m x = 0.

(** [m'] reads as [m] at every address outside the [n] bytes at [a]. *)
Definition same_outside (m m' : gmap Z Z) (a n : Z) : Prop :=
  forall x, x < a \/ a + n <= x -> load8 m' x = load8 m x.

(** A processor without VMX: every MSR read faults, IA32_VMX_BASIC
    included. *)
Definition no_vmx : Platform := stub_platform (fun _ => None) 0.

(** A world whose memory holds stale bytes, at interrupt level [q]. *)
Definition dirty_world (q : Z) (script : list Z) : World :=
  {| mem := <[0x1FFFF := 0x11]> (<[0x20000 := 0xAA]> (<[0x20FFF := 0xBB]>
            (<[0x21008 := 0x55]> (<[0x30000 := 0x77]> ∅))));
     allocs := script;
     irql := q |}.

(** * Lemmas on the memory *)

Section Memory.
Implicit Type m : gmap Z Z.

Lemma load8_insert_eq m a v : load8 (<[a := v]> m) a = v.
Proof. unfold load8. by rewrite lookup_insert_eq. Qed.

Lemma load8_insert_ne m a b v : a <> b -> load8 (<[a := v]> m) b = load8 m b.
Proof. intros H. unfold load8. by rewrite lookup_insert_ne. Qed.

Lemma load8_store8_eq m a v : load8 (store8 m a v) a = wrap8 v.
Proof. apply load8_insert_eq. Qed.

Lemma load8_store8_ne m a b v : a <> b -> load8 (store8 m a v) b = load8 m b.
Proof. apply load8_insert_ne. Qed.

Lemma load8_zero_bytes m n : forall a x,
  load8 (zero_bytes m a n) x =
  if (a <=? x) && (x <? a + Z.of_nat n) then 0 else load8 m x.
Proof.
  revert m. induction n as [|n IH]; intros m a x.
  - cbn [zero_bytes].
    destruct (Z.leb_spec a x), (Z.ltb_spec x (a + Z.of_nat 0));
      cbn [andb]; try reflexivity; lia.
  - cbn [zero_bytes]. rewrite IH.
    destruct (Z.eq_dec a x) as [->|Hne].
    + rewrite load8_insert_eq.
      destruct (Z.leb_spec (x + 1) x), (Z.leb_spec x x),
               (Z.ltb_spec x (x + Z.of_nat (S n)));
        cbn [andb]; try reflexivity; lia.
    + rewrite load8_insert_ne by assumption.
      destruct (Z.leb_spec (a + 1) x), (Z.ltb_spec x (a + 1 + Z.of_nat n)),
               (Z.leb_spec a x), (Z.ltb_spec x (a + Z.of_nat (S n)));
        cbn [andb]; try reflexivity; lia.
Qed.

Lemma load8_store_le_below m n : forall a v x,
  x < a -> load8 (store_le m a n v) x = load8 m x.
Proof.
  revert m. induction n as [|n IH]; intros m a v x Hx; cbn [store_le].
  - reflexivity.
  - rewrite IH by lia. apply load8_store8_ne. lia.
Qed.

Lemma recombine_byte v k :
  0 <= k ->
  Z.lor (v mod 2 ^ 8) (Z.shiftl (Z.shiftr v 8 mod 2 ^ k) 8) = v mod 2 ^ (k + 8).
Proof.
  intros Hk. apply Z.bits_inj'. intros i Hi.
  rewrite Z.lor_spec, Z.shiftl_spec by assumption.
  destruct (Z_lt_dec i 8) as [Hlt|Hge].
  - rewrite (Z.mod_pow2_bits_low v 8 i) by lia.
    rewrite (Z.testbit_neg_r _ (i - 8)) by lia.
    rewrite (Z.mod_pow2_bits_low v (k + 8) i) by lia.
    apply orb_false_r.
  - rewrite (Z.mod_pow2_bits_high v 8 i) by lia. cbn [orb].
    destruct (Z_lt_dec (i - 8) k) as [Hlt|Hge'].
    + rewrite Z.mod_pow2_bits_low by lia.
      rewrite Z.shiftr_spec by lia.
      rewrite (Z.mod_pow2_bits_low v (k + 8) i) by lia.
      f_equal. lia.
    + rewrite Z.mod_pow2_bits_high by lia.
      rewrite (Z.mod_pow2_bits_high v (k + 8) i) by lia.
      reflexivity.
Qed.

Lemma load_le_store_le m n : forall a v,
  load_le (store_le m a n v) a n = v mod 2 ^ (8 * Z.of_nat n).
Proof.
  revert m. induction n as [|n IH]; intros m a v.
  - cbn. symmetry. apply Z.mod_1_r.
  - cbn [store_le load_le]. rewrite IH.
    rewrite load8_store_le_below by lia.
    rewrite load8_store8_eq. unfold wrap8.
    rewrite recombine_byte by lia. f_equal. f_equal. lia.
Qed.

Lemma load64_store64 m a v : load64 (store64 m a v) a = wrap64 v.
Proof. unfold load64, store64, wrap64. apply load_le_store_le. Qed.

(** Setting bit [i] makes it read as set and leaves every other bit of
    the bitmap as it was. *)
Lemma TestBit_set_bit m p i j :
  0 <= i -> 0 <= j ->
  TestBit (set_bit m i p) j p = (j =? i) || TestBit m j p.
Proof.
  intros Hi Hj. unfold TestBit, set_bit.
  assert (Hmi : 0 <= i mod 8 < 8) by (apply Z.mod_pos_bound; lia).
  assert (Hmj : 0 <= j mod 8 < 8) by (apply Z.mod_pos_bound; lia).
  destruct (Z.eq_dec (j / 8) (i / 8)) as [Heq|Hne].
  - rewrite Heq, load8_store8_eq. unfold wrap8.
    rewrite Z.mod_pow2_bits_low by lia.
    rewrite Z.lor_spec, Z.shiftl_1_l, Z.pow2_bits_eqb by lia.
    rewrite orb_comm. f_equal.
    pose proof (Z.div_mod i 8 ltac:(lia)).
    pose proof (Z.div_mod j 8 ltac:(lia)).
    destruct (Z.eqb_spec j i), (Z.eqb_spec (i mod 8) (j mod 8));
      try reflexivity; lia.
  - rewrite load8_store8_ne by lia.
    destruct (Z.eqb_spec j i) as [->|_]; [congruence|reflexivity].
Qed.
End Memory.

(** * Lemmas on the page rounding *)

Section Alignment.
Lemma wrap64_small x : 0 <= x < 2 ^ 64 -> wrap64 x = x.
Proof. apply Z.mod_small. Qed.

(** Masking a 64-bit value with [~(ALIGNMENT_PAGE_SIZE - 1)] clears its
    low 12 bits. *)
Lemma land_page_mask x :
  0 <= x < 2 ^ 64 ->
  Z.land x (wrap64 (Z.lnot (ALIGNMENT_PAGE_SIZE - 1))) = 4096 * (x / 4096).
Proof.
  intros Hx. unfold wrap64.
  rewrite <- Z.land_ones by lia.
  rewrite (Z.land_comm (Z.lnot _)), Z.land_assoc.
  rewrite (Z.land_ones x 64), (Z.mod_small x) by lia.
  change (ALIGNMENT_PAGE_SIZE - 1) with (Z.ones 12).
  rewrite <- Z.ldiff_land, Z.ldiff_ones_r by lia.
  rewrite Z.shiftl_mul_pow2, Z.shiftr_div_pow2 by lia.
  change (2 ^ 12) with 4096. lia.
Qed.

Lemma align_page_eq a :
  0 <= a -> a + ALIGNMENT_PAGE_SIZE <= 2 ^ 64 ->
  align_page a = 4096 * ((a + 4095) / 4096).
Proof.
  unfold align_page, ALIGNMENT_PAGE_SIZE. intros H0 H1.
  rewrite wrap64_small by lia.
  rewrite land_page_mask by lia.
  do 2 f_equal. lia.
Qed.

Lemma align_page_least a :
  0 <= a -> a + ALIGNMENT_PAGE_SIZE <= 2 ^ 64 ->
  least_page_multiple a (align_page a).
Proof.
  intros H0 H1. rewrite align_page_eq by assumption.
  unfold least_page_multiple. repeat split.
  - pose proof (Z.div_mod (a + 4095) 4096 ltac:(lia)).
    pose proof (Z.mod_pos_bound (a + 4095) 4096 ltac:(lia)). lia.
  - rewrite Z.mul_comm. apply Z.mod_mul. lia.
  - intros y Hy Hm.
    pose proof (Z.div_mod y 4096 ltac:(lia)) as Hdy. rewrite Hm in Hdy.
    assert ((a + 4095) / 4096 < y / 4096 + 1); [|lia].
    apply Z.div_lt_upper_bound; lia.
Qed.

Lemma align_page_lt a :
  0 <= a -> a + ALIGNMENT_PAGE_SIZE <= 2 ^ 64 ->
  align_page a < a + ALIGNMENT_PAGE_SIZE.
Proof.
  intros H0 H1. rewrite align_page_eq by assumption.
  unfold ALIGNMENT_PAGE_SIZE.
  pose proof (Z.div_mod (a + 4095) 4096 ltac:(lia)).
  pose proof (Z.mod_pos_bound (a + 4095) 4096 ltac:(lia)). lia.
Qed.

(** In the last page of the address space the 64-bit sum wraps and the
    rounding yields 0; no buffer of a page or more starts there. *)
Remark align_page_wraps : align_page (2 ^ 64 - 1) = 0.
Proof. reflexivity. Qed.
End Alignment.

(** * The paths of each function

    Each lemma of this section runs a function along one of its paths and
    gives the trace and the outcome of the call; the theorems below read
    their claims off these equations. *)

Ltac run_step :=
  unfold bind, LogDebugInfo, LogError, emit, write_UINT64, __vmx_on,
    RtlZeroMemory, ExAllocatePoolWithTag, ret;
  cbn [outcome trace app].

Section Paths.
Context {R : Type}.
Variable hw : Platform.
Implicit Type VCpu : VIRTUAL_MACHINE_STATE R.
Implicit Type w : World.

Lemma raise_irql_prologue_run w :
  raise_irql_prologue w = mkRun (prologue_trace w) (Ret tt (after_prologue w)).
Proof.
  unfold raise_irql_prologue, prologue_trace, after_prologue, bind.
  cbn. destruct (DISPATCH_LEVEL <? irql w); reflexivity.
Qed.

Lemma next_alloc_after_prologue w : next_alloc (after_prologue w) = next_alloc w.
Proof. unfold after_prologue. destruct (_ <? _); reflexivity. Qed.

Lemma mem_after_prologue w : mem (after_prologue w) = mem w.
Proof. unfold after_prologue. destruct (_ <? _); reflexivity. Qed.

Lemma vmxon_status_prologue w tr :
  vmxon_status (prologue_trace w ++ tr) = vmxon_status tr.
Proof. unfold prologue_trace. destruct (_ <? _); reflexivity. Qed.

Lemma logged_errors_prologue w tr :
  logged_errors (prologue_trace w ++ tr) = logged_errors tr.
Proof. unfold prologue_trace. destruct (_ <? _); reflexivity. Qed.

(** *** VmxAllocateVmxonRegion *)

Lemma vmxon_alloc_failed VCpu w :
  next_alloc w = NULL ->
  VmxAllocateVmxonRegion hw VCpu w =
  mkRun (prologue_trace w ++
         [EvAllocContiguous (region_alloc_size (VMXON_SIZE hw)) NULL;
          EvLogError "Err, couldn't allocate buffer for VMXON region" []])
        (Ret (false, VCpu) (after_alloc (after_prologue w))).
Proof.
  intros Hp. unfold VmxAllocateVmxonRegion.
  unfold bind, CrsAllocateContiguousZeroedMemory, after_stamp, after_zeroed_alloc.
  rewrite raise_irql_prologue_run. cbn [outcome trace].
  rewrite next_alloc_after_prologue, Hp. cbn [Z.eqb NULL].
  run_step. reflexivity.
Qed.

Lemma vmxon_msr_faulted VCpu w :
  next_alloc w <> NULL ->
  readmsr hw IA32_VMX_BASIC = None ->
  VmxAllocateVmxonRegion hw VCpu w =
  mkRun (prologue_trace w ++ vmxon_trace_allocated hw w ++
         [EvReadMsr IA32_VMX_BASIC None])
        (Raise (after_zeroed_alloc (region_alloc_size (VMXON_SIZE hw)) (after_prologue w))).
Proof.
  intros Hp Hmsr. unfold VmxAllocateVmxonRegion.
  unfold bind, CrsAllocateContiguousZeroedMemory, after_stamp, after_zeroed_alloc.
  rewrite raise_irql_prologue_run. cbn [outcome trace].
  rewrite next_alloc_after_prologue. apply Z.eqb_neq in Hp. rewrite Hp.
  run_step. unfold __readmsr. rewrite Hmsr. cbn [outcome trace].
  reflexivity.
Qed.

Lemma vmxon_instruction_failed VCpu w cap :
  next_alloc w <> NULL ->
  readmsr hw IA32_VMX_BASIC = Some cap ->
  wrap8 (vmx_on hw (align_page (VirtualAddressToPhysicalAddress hw (next_alloc w)))) <> 0 ->
  VmxAllocateVmxonRegion hw VCpu w =
  mkRun (prologue_trace w ++ vmxon_trace_stamped hw cap w ++
         [EvLogError "Err, executing vmxon instruction failed with status : %d"
            [wrap8 (vmx_on hw (align_page (VirtualAddressToPhysicalAddress hw (next_alloc w))))]])
        (Ret (false, VCpu)
             (after_stamp (region_alloc_size (VMXON_SIZE hw)) cap (after_prologue w))).
Proof.
  intros Hp Hmsr Hst. unfold VmxAllocateVmxonRegion.
  unfold bind, CrsAllocateContiguousZeroedMemory, after_stamp, after_zeroed_alloc.
  rewrite raise_irql_prologue_run. cbn [outcome trace].
  rewrite next_alloc_after_prologue. apply Z.eqb_neq in Hp. rewrite Hp.
  run_step. unfold __readmsr. rewrite Hmsr. cbn [outcome trace app].
  apply Z.eqb_neq in Hst. rewrite Hst. cbn [negb outcome trace app].
  reflexivity.
Qed.

Lemma vmxon_succeeded VCpu w cap :
  next_alloc w <> NULL ->
  readmsr hw IA32_VMX_BASIC = Some cap ->
  wrap8 (vmx_on hw (align_page (VirtualAddressToPhysicalAddress hw (next_alloc w)))) = 0 ->
  VmxAllocateVmxonRegion hw VCpu w =
  mkRun (prologue_trace w ++ vmxon_trace_stamped hw cap w)
        (Ret (true,
              set_VmxonRegionVirtualAddress (next_alloc w)
                (set_VmxonRegionPhysicalAddress
                   (align_page (VirtualAddressToPhysicalAddress hw (next_alloc w))) VCpu))
             (after_stamp (region_alloc_size (VMXON_SIZE hw)) cap (after_prologue w))).
Proof.
  intros Hp Hmsr Hst. unfold VmxAllocateVmxonRegion.
  unfold bind, CrsAllocateContiguousZeroedMemory, after_stamp, after_zeroed_alloc.
  rewrite raise_irql_prologue_run. cbn [outcome trace].
  rewrite next_alloc_after_prologue. apply Z.eqb_neq in Hp. rewrite Hp.
  run_step. unfold __readmsr. rewrite Hmsr. cbn [outcome trace app].
  unfold vmxon_trace_stamped.
  rewrite Hst. cbn [Z.eqb negb outcome trace app].
  reflexivity.
Qed.

(** *** VmxAllocateVmcsRegion *)

Lemma vmcs_alloc_failed VCpu w :
  next_alloc w = NULL ->
  VmxAllocateVmcsRegion hw VCpu w =
  mkRun (prologue_trace w ++
         [EvAllocContiguous (region_alloc_size (VMCS_SIZE hw)) NULL;
          EvLogError "Err, couldn't allocate Buffer for VMCS region" []])
        (Ret (false, VCpu) (after_alloc (after_prologue w))).
Proof.
  intros Hp. unfold VmxAllocateVmcsRegion.
  unfold bind, CrsAllocateContiguousZeroedMemory, after_stamp, after_zeroed_alloc.
  rewrite raise_irql_prologue_run. cbn [outcome trace].
  rewrite next_alloc_after_prologue, Hp. cbn [Z.eqb NULL].
  run_step. reflexivity.
Qed.

Lemma vmcs_msr_faulted VCpu w :
  next_alloc w <> NULL ->
  readmsr hw IA32_VMX_BASIC = None ->
  VmxAllocateVmcsRegion hw VCpu w =
  mkRun (prologue_trace w ++ vmcs_trace_allocated hw w ++
         [EvReadMsr IA32_VMX_BASIC None])
        (Raise (after_zeroed_alloc (region_alloc_size (VMCS_SIZE hw)) (after_prologue w))).
Proof.
  intros Hp Hmsr. unfold VmxAllocateVmcsRegion.
  unfold bind, CrsAllocateContiguousZeroedMemory, after_stamp, after_zeroed_alloc.
  rewrite raise_irql_prologue_run. cbn [outcome trace].
  rewrite next_alloc_after_prologue. apply Z.eqb_neq in Hp. rewrite Hp.
  run_step. unfold __readmsr. rewrite Hmsr. cbn [outcome trace].
  reflexivity.
Qed.

Lemma vmcs_succeeded VCpu w cap :
  next_alloc w <> NULL ->
  readmsr hw IA32_VMX_BASIC = Some cap ->
  VmxAllocateVmcsRegion hw VCpu w =
  mkRun (prologue_trace w ++ vmcs_trace_allocated hw w ++
         [EvReadMsr IA32_VMX_BASIC (Some cap);
          EvLogDebug "Revision Identifier (IA32_VMX_BASIC - MSR 0x480) : 0x%x"
                     [VmcsRevisionId cap]])
        (Ret (true,
              set_VmcsRegionVirtualAddress (next_alloc w)
                (set_VmcsRegionPhysicalAddress
                   (align_page (VirtualAddressToPhysicalAddress hw (next_alloc w))) VCpu))
             (after_stamp (region_alloc_size (VMCS_SIZE hw)) cap (after_prologue w))).
Proof.
  intros Hp Hmsr. unfold VmxAllocateVmcsRegion.
  unfold bind, CrsAllocateContiguousZeroedMemory, after_stamp, after_zeroed_alloc.
  rewrite raise_irql_prologue_run. cbn [outcome trace].
  rewrite next_alloc_after_prologue. apply Z.eqb_neq in Hp. rewrite Hp.
  run_step. unfold __readmsr. rewrite Hmsr. cbn [outcome trace app].
  reflexivity.
Qed.

(** *** VmxAllocateVmmStack *)

Lemma vmm_stack_alloc_failed VCpu w :
  next_alloc w = NULL ->
  VmxAllocateVmmStack hw VCpu w =
  mkRun [EvAllocPool (VMM_STACK_SIZE hw) NULL;
         EvLogError "Err, insufficient memory in allocationg vmm stack" []]
        (Ret (false, set_VmmStack NULL VCpu) (after_alloc w)).
Proof.
  intros Hp. unfold VmxAllocateVmmStack. run_step.
  cbn [VmmStack set_VmmStack]. rewrite Hp. reflexivity.
Qed.

Lemma vmm_stack_succeeded VCpu w :
  next_alloc w <> NULL ->
  VmxAllocateVmmStack hw VCpu w =
  mkRun [EvAllocPool (VMM_STACK_SIZE hw) (next_alloc w);
         EvLogDebug "VMM Stack for logical processor : 0x%llx" [next_alloc w]]
        (Ret (true, set_VmmStack (next_alloc w) VCpu)
             (after_zeroed_alloc (VMM_STACK_SIZE hw) w)).
Proof.
  intros Hp. unfold VmxAllocateVmmStack. run_step.
  cbn [VmmStack set_VmmStack]. apply Z.eqb_neq in Hp. rewrite Hp. reflexivity.
Qed.

(** *** VmxAllocateMsrBitmap *)

Lemma msr_bitmap_alloc_failed VCpu w :
  next_alloc w = NULL ->
  VmxAllocateMsrBitmap hw VCpu w =
  mkRun [EvAllocPool PAGE_SIZE NULL;
         EvLogError "Err, insufficient memory in allocationg MSR Bitmaps" []]
        (Ret (false, set_MsrBitmapVirtualAddress NULL VCpu) (after_alloc w)).
Proof.
  intros Hp. unfold VmxAllocateMsrBitmap. run_step.
  cbn [MsrBitmapVirtualAddress set_MsrBitmapVirtualAddress]. rewrite Hp. reflexivity.
Qed.

Lemma msr_bitmap_succeeded VCpu w :
  next_alloc w <> NULL ->
  VmxAllocateMsrBitmap hw VCpu w =
  mkRun [EvAllocPool PAGE_SIZE (next_alloc w);
         EvLogDebug "MSR Bitmap virtual address  : 0x%llx" [next_alloc w];
         EvLogDebug "MSR Bitmap physical address : 0x%llx"
                    [VirtualAddressToPhysicalAddress hw (next_alloc w)]]
        (Ret (true,
              set_MsrBitmapPhysicalAddress (VirtualAddressToPhysicalAddress hw (next_alloc w))
                (set_MsrBitmapVirtualAddress (next_alloc w) VCpu))
             (after_zeroed_alloc PAGE_SIZE w)).
Proof.
  intros Hp. unfold VmxAllocateMsrBitmap. run_step.
  cbn [MsrBitmapVirtualAddress set_MsrBitmapVirtualAddress].
  apply Z.eqb_neq in Hp. rewrite Hp. reflexivity.
Qed.

(** *** VmxAllocateIoBitmaps *)

Lemma io_bitmaps_A_failed VCpu w :
  next_alloc w = NULL ->
  VmxAllocateIoBitmaps hw VCpu w =
  mkRun [EvAllocPool PAGE_SIZE NULL;
         EvLogError "Err, insufficient memory in allocationg I/O Bitmaps A" []]
        (Ret (false, set_IoBitmapVirtualAddressA NULL VCpu) (after_alloc w)).
Proof.
  intros Hp. unfold VmxAllocateIoBitmaps. run_step.
  cbn [IoBitmapVirtualAddressA set_IoBitmapVirtualAddressA]. rewrite Hp. reflexivity.
Qed.

Lemma io_bitmaps_B_failed VCpu w :
  next_alloc w <> NULL ->
  second_alloc w = NULL ->
  VmxAllocateIoBitmaps hw VCpu w =
  mkRun (io_trace_A hw w ++
         [EvAllocPool PAGE_SIZE NULL;
          EvLogError "Err, insufficient memory in allocationg I/O Bitmaps B" []])
        (Ret (false, set_IoBitmapVirtualAddressB NULL (io_published_A hw VCpu w))
             (after_alloc (after_zeroed_alloc PAGE_SIZE w))).
Proof.
  intros Hp Hq. unfold VmxAllocateIoBitmaps. run_step.
  cbn [IoBitmapVirtualAddressA set_IoBitmapVirtualAddressA].
  apply Z.eqb_neq in Hp. rewrite Hp. cbn [outcome trace app].
  cbn [IoBitmapVirtualAddressB set_IoBitmapVirtualAddressB].
  change (next_alloc (set_mem _ (set_allocs (tl (allocs w)) w))) with (second_alloc w).
  rewrite Hq. reflexivity.
Qed.

Lemma io_bitmaps_succeeded VCpu w :
  next_alloc w <> NULL ->
  second_alloc w <> NULL ->
  VmxAllocateIoBitmaps hw VCpu w =
  mkRun (io_trace_A hw w ++
         [EvAllocPool PAGE_SIZE (second_alloc w);
          EvLogDebug "I/O Bitmap B virtual address  : 0x%llx" [second_alloc w];
          EvLogDebug "I/O Bitmap B physical address : 0x%llx"
                     [VirtualAddressToPhysicalAddress hw (second_alloc w)]])
        (Ret (true,
              set_IoBitmapPhysicalAddressB (VirtualAddressToPhysicalAddress hw (second_alloc w))
                (set_IoBitmapVirtualAddressB (second_alloc w) (io_published_A hw VCpu w)))
             (after_zeroed_alloc PAGE_SIZE (after_zeroed_alloc PAGE_SIZE w))).
Proof.
  intros Hp Hq. unfold VmxAllocateIoBitmaps. run_step.
  cbn [IoBitmapVirtualAddressA set_IoBitmapVirtualAddressA].
  apply Z.eqb_neq in Hp. rewrite Hp. cbn [outcome trace app].
  cbn [IoBitmapVirtualAddressB set_IoBitmapVirtualAddressB].
  change (next_alloc (set_mem _ (set_allocs (tl (allocs w)) w))) with (second_alloc w).
  apply Z.eqb_neq in Hq. rewrite Hq. reflexivity.
Qed.

(** *** VmxAllocateInvalidMsrBimap *)

Lemma set_mem_mem w : set_mem (mem w) w = w.
Proof. destruct w; reflexivity. Qed.

Lemma probe_msr_run p i w :
  probe_msr hw p i w =
  mkRun [probe_event hw i]
        (Ret tt (set_mem (if faults hw i then set_bit (mem w) i p else mem w) w)).
Proof.
  unfold probe_msr, try_except, bind, __readmsr, SetBit, ret, probe_event, faults.
  destruct (readmsr hw i); cbn [outcome trace app].
  - rewrite set_mem_mem. reflexivity.
  - reflexivity.
Qed.

(** The loop runs every iteration, whatever the earlier reads did. *)
Lemma probe_loop_run p n : forall i w,
  for_loop i n (probe_msr hw p) w =
  mkRun (probe_event hw <$> seqZ i (Z.of_nat n))
        (Ret tt (set_mem (probed_mem hw (mem w) p i n) w)).
Proof.
  induction n as [|n IH]; intros i w.
  - cbn [for_loop probed_mem]. rewrite set_mem_mem. reflexivity.
  - cbn [for_loop probed_mem]. unfold bind.
    rewrite probe_msr_run. cbn [outcome trace]. rewrite IH.
    rewrite (seqZ_cons i (Z.of_nat (S n))) by lia.
    replace (Z.pred (Z.of_nat (S n))) with (Z.of_nat n) by lia.
    reflexivity.
Qed.

Lemma TestBit_probed_mem p n : forall m i j,
  0 <= i -> 0 <= j ->
  TestBit (probed_mem hw m p i n) j p =
  ((i <=? j) && (j <? i + Z.of_nat n) && faults hw j) || TestBit m j p.
Proof.
  induction n as [|n IH]; intros m i j Hi Hj; cbn [probed_mem].
  - destruct (Z.leb_spec i j), (Z.ltb_spec j (i + Z.of_nat 0));
      cbn [andb orb]; try reflexivity; lia.
  - rewrite IH by lia.
    destruct (Z.eq_dec j i) as [->|Hne].
    + destruct (Z.leb_spec (i + 1) i), (Z.leb_spec i i),
               (Z.ltb_spec i (i + Z.of_nat (S n))); try lia.
      cbn [andb orb]. destruct (faults hw i); [|reflexivity].
      rewrite TestBit_set_bit by lia. rewrite Z.eqb_refl. reflexivity.
    + assert (Hm : TestBit (if faults hw i then set_bit m i p else m) j p = TestBit m j p).
      { destruct (faults hw i); [|reflexivity].
        rewrite TestBit_set_bit by lia.
        destruct (Z.eqb_spec j i); [contradiction|reflexivity]. }
      rewrite Hm.
      destruct (Z.leb_spec (i + 1) j), (Z.ltb_spec j (i + 1 + Z.of_nat n)),
               (Z.leb_spec i j), (Z.ltb_spec j (i + Z.of_nat (S n)));
        cbn [andb orb]; try reflexivity; lia.
Qed.

(** Every bit of a zeroed bitmap of [n] bytes is clear. *)
Lemma TestBit_zero_bytes m p n j :
  0 <= j < 8 * Z.of_nat n ->
  TestBit (zero_bytes m p n) j p = false.
Proof.
  intros Hj. unfold TestBit. rewrite load8_zero_bytes.
  assert (0 <= j / 8 < Z.of_nat n).
  { split; [apply Z.div_pos; lia | apply Z.div_lt_upper_bound; lia]. }
  destruct (Z.leb_spec p (p + j / 8)), (Z.ltb_spec (p + j / 8) (p + Z.of_nat n));
    cbn [andb]; try lia.
  apply Z.bits_0.
Qed.

(** The probing loop writes only the bytes that hold the bits it probes. *)
Lemma load8_probed_mem_other p x n : forall m i,
  (forall j, i <= j < i + Z.of_nat n -> x <> p + j / 8) ->
  load8 (probed_mem hw m p i n) x = load8 m x.
Proof.
  induction n as [|n IH]; intros m i Hx; cbn [probed_mem]; [reflexivity|].
  rewrite IH by (intros j Hj; apply Hx; lia).
  destruct (faults hw i); [|reflexivity].
  unfold set_bit. apply load8_store8_ne.
  intros Heq. apply (Hx i); [lia|congruence].
Qed.

(** A bit beyond the 4096 bits of the bitmap reads after the call as it
    did before. *)
Lemma TestBit_probed_world_beyond w k :
  0x1000 <= k ->
  TestBit (mem (probed_world hw w)) k (next_alloc w) = TestBit (mem w) k (next_alloc w).
Proof.
  intros Hk. unfold TestBit, probed_world. cbn [mem set_mem]. f_equal.
  assert (Hq : 512 <= k / 8) by (apply Z.div_le_lower_bound; lia).
  rewrite load8_probed_mem_other.
  - rewrite load8_zero_bytes.
    change (Z.of_nat (Z.to_nat (0x1000 / 0x8))) with 512.
    destruct (Z.leb_spec (next_alloc w) (next_alloc w + k / 8)),
             (Z.ltb_spec (next_alloc w + k / 8) (next_alloc w + 512));
      cbn [andb]; try reflexivity; lia.
  - change (Z.of_nat (Z.to_nat 0x1000)) with 0x1000. intros j Hj.
    assert (j / 8 < 512) by (apply Z.div_lt_upper_bound; lia). lia.
Qed.

Lemma prober_alloc_failed w :
  next_alloc w = NULL ->
  VmxAllocateInvalidMsrBimap hw w =
  mkRun [EvAllocPool (0x1000 / 0x8) NULL] (Ret NULL (after_alloc w)).
Proof.
  intros Hp. unfold VmxAllocateInvalidMsrBimap, bind, ExAllocatePoolWithTag.
  cbn [outcome trace]. rewrite Hp. reflexivity.
Qed.

Lemma bind_Ret_run {A B} (m : M A) (k : A -> M B) w t a w1 :
  m w = mkRun t (Ret a w1) ->
  bind m k w = mkRun (t ++ trace (k a w1)) (outcome (k a w1)).
Proof. intros H. unfold bind. rewrite H. reflexivity. Qed.

Lemma prober_loop_run p n w :
  (for_loop 0 n (probe_msr hw p) ;;; ret p) w =
  mkRun (probe_event hw <$> seqZ 0 (Z.of_nat n))
        (Ret p (set_mem (probed_mem hw (mem w) p 0 n) w)).
Proof.
  rewrite (bind_Ret_run _ _ _ _ _ _ (probe_loop_run p n 0 w)).
  unfold ret. cbn [outcome trace]. rewrite app_nil_r. reflexivity.
Qed.

Lemma prober_zeroed_run p n w :
  (RtlZeroMemory p (0x1000 / 0x8) ;;; for_loop 0 n (probe_msr hw p) ;;; ret p) w =
  mkRun (probe_event hw <$> seqZ 0 (Z.of_nat n))
        (Ret p (set_mem (probed_mem hw (zero_bytes (mem w) p (Z.to_nat (0x1000 / 0x8))) p 0 n) w)).
Proof.
  rewrite (bind_Ret_run _ _ w [] tt _ eq_refl).
  rewrite prober_loop_run. destruct w. reflexivity.
Qed.

Lemma prober_succeeded w :
  next_alloc w <> NULL ->
  VmxAllocateInvalidMsrBimap hw w =
  mkRun (EvAllocPool (0x1000 / 0x8) (next_alloc w) :: (probe_event hw <$> seqZ 0 0x1000))
        (Ret (next_alloc w) (probed_world hw w)).
Proof.
  intros Hp. unfold VmxAllocateInvalidMsrBimap.
  rewrite (bind_Ret_run _ _ w _ _ _ eq_refl).
  apply Z.eqb_neq in Hp. rewrite Hp.
  rewrite prober_zeroed_run. rewrite Z2Nat.id by lia. reflexivity.
Qed.

Lemma TestBit_probed_world w j :
  0 <= j < 0x1000 ->
  TestBit (mem (probed_world hw w)) j (next_alloc w) = faults hw j.
Proof.
  intros Hj. unfold probed_world. cbn [mem set_mem].
  rewrite TestBit_probed_mem by lia.
  rewrite TestBit_zero_bytes by (change (Z.of_nat (Z.to_nat (0x1000 / 0x8))) with 512; lia).
  rewrite orb_false_r.
  change (Z.of_nat (Z.to_nat 0x1000)) with 0x1000.
  destruct (Z.leb_spec 0 j), (Z.ltb_spec j (0 + 0x1000)); try lia.
  reflexivity.
Qed.
End Paths.

(** * Further lemmas used by the theorems *)

Section Reading.
Context {R : Type}.
Variable hw : Platform.

Lemma align_page_multiple a : align_page a mod 4096 = 0.
Proof.
  unfold align_page.
  rewrite land_page_mask by (apply Z.mod_pos_bound; lia).
  rewrite Z.mul_comm. apply Z.mod_mul. lia.
Qed.

Lemma VmcsRevisionId_mod cap : VmcsRevisionId cap = cap mod 2 ^ 31.
Proof. unfold VmcsRevisionId. apply Z.land_ones. lia. Qed.

Lemma load64_after_stamp size cap w :
  load64 (mem (after_stamp size cap w)) (align_page (next_alloc w)) = cap mod 2 ^ 31.
Proof.
  unfold after_stamp. cbn [mem set_mem].
  rewrite load64_store64, VmcsRevisionId_mod.
  apply wrap64_small.
  pose proof (Z.mod_pos_bound cap (2 ^ 31) ltac:(lia)). lia.
Qed.

Lemma msr_reads_prologue w tr :
  msr_reads (prologue_trace w ++ tr) = msr_reads tr.
Proof. unfold prologue_trace. destruct (_ <? _); reflexivity. Qed.

Lemma msr_reads_probe_events l :
  msr_reads (probe_event hw <$> l) = (fun i => (i, readmsr hw i)) <$> l.
Proof.
  induction l as [|i l IH]; [reflexivity|].
  cbn. rewrite IH. reflexivity.
Qed.

Lemma faults_true_iff i : faults hw i = true <-> readmsr hw i = None.
Proof. unfold faults. destruct (readmsr hw i); split; congruence. Qed.

Lemma set_IoBitmapVirtualAddressB_same (s : VIRTUAL_MACHINE_STATE R) v :
  IoBitmapVirtualAddressB s = v -> set_IoBitmapVirtualAddressB v s = s.
Proof. destruct s. cbn. intros <-. reflexivity. Qed.
End Reading.

(** * The claims *)

Section Claims.
Context {R : Type}.
Variable hw : Platform.
Implicit Type VCpu : VIRTUAL_MACHINE_STATE R.
Implicit Type w : World.

(** C1: VmxAllocateInvalidMsrBimap always returns; it returns what the
    pool answered to its single request of 512 bytes, hence NULL exactly
    when that allocation fails; otherwise the loop reads every index
    0..4095 in order, whatever the earlier reads did, and in the returned
    bitmap the bit of an index in 0..4095 is set if and only if the read
    of that index faulted, and clear otherwise. *)
Theorem VmxAllocateInvalidMsrBimap_bitmap w :
  exists p w',
    outcome (VmxAllocateInvalidMsrBimap hw w) = Ret p w' /\
    p = next_alloc w /\
    (p = NULL <-> next_alloc w = NULL) /\
    (exists tr, trace (VmxAllocateInvalidMsrBimap hw w) = EvAllocPool 512 p :: tr) /\
    (next_alloc w <> NULL ->
     msr_reads (trace (VmxAllocateInvalidMsrBimap hw w))
       = (fun i => (i, readmsr hw i)) <$> seqZ 0 4096 /\
     forall i, 0 <= i < 4096 ->
       (TestBit (mem w') i p = true <-> readmsr hw i = None) /\
       (TestBit (mem w') i p = false <-> exists v, readmsr hw i = Some v)).
Proof.
  destruct (Z.eq_dec (next_alloc w) NULL) as [Hp|Hp].
  - exists NULL, (after_alloc w). rewrite prober_alloc_failed by assumption.
    cbn [outcome trace].
    split; [reflexivity|]. split; [congruence|]. split; [tauto|].
    split; [eexists; reflexivity|]. contradiction.
  - exists (next_alloc w), (probed_world hw w).
    rewrite prober_succeeded by assumption. cbn [outcome trace].
    split; [reflexivity|]. split; [reflexivity|]. split; [tauto|].
    split; [eexists; reflexivity|]. intros _. split.
    + cbn [msr_reads]. apply msr_reads_probe_events.
    + intros i Hi. rewrite TestBit_probed_world by assumption.
      rewrite <- faults_true_iff. split; [reflexivity|].
      unfold faults. destruct (readmsr hw i); split.
      * eauto.
      * reflexivity.
      * discriminate.
      * intros [v Hv]. discriminate.
Qed.

(** C2: after a successful VmxAllocateVmxonRegion or VmxAllocateVmcsRegion
    the 64-bit value at offset 0 of the aligned region is the low 31 bits
    of the IA32_VMX_BASIC value the call read; when the register reports
    revision identifier 0x1F, the first 8 bytes of the VMCS region read
    as 31. *)
Theorem region_revision_identifier VCpu w :
  (forall VCpu' w',
     outcome (VmxAllocateVmxonRegion hw VCpu w) = Ret (true, VCpu') w' ->
     exists cap,
       msr_reads (trace (VmxAllocateVmxonRegion hw VCpu w)) = [(IA32_VMX_BASIC, Some cap)] /\
       load64 (mem w') (align_page (next_alloc w)) = cap mod 2 ^ 31) /\
  (forall VCpu' w',
     outcome (VmxAllocateVmcsRegion hw VCpu w) = Ret (true, VCpu') w' ->
     exists cap,
       msr_reads (trace (VmxAllocateVmcsRegion hw VCpu w)) = [(IA32_VMX_BASIC, Some cap)] /\
       load64 (mem w') (align_page (next_alloc w)) = cap mod 2 ^ 31) /\
  (forall cap,
     next_alloc w <> NULL ->
     readmsr hw IA32_VMX_BASIC = Some cap ->
     cap mod 2 ^ 31 = 0x1F ->
     exists VCpu' w',
       outcome (VmxAllocateVmcsRegion hw VCpu w) = Ret (true, VCpu') w' /\
       load64 (mem w') (align_page (next_alloc w)) = 31).
Proof.
  split; [|split].
  - intros VCpu' w' H.
    destruct (Z.eq_dec (next_alloc w) NULL) as [Hp|Hp].
    { rewrite vmxon_alloc_failed in H by assumption. discriminate. }
    destruct (readmsr hw IA32_VMX_BASIC) as [cap|] eqn:Hmsr.
    2:{ rewrite vmxon_msr_faulted in H by assumption. discriminate. }
    destruct (Z.eq_dec (wrap8 (vmx_on hw (align_page
               (VirtualAddressToPhysicalAddress hw (next_alloc w))))) 0) as [Hst|Hst].
    2:{ rewrite (vmxon_instruction_failed hw VCpu w cap) in H by assumption. discriminate. }
    rewrite (vmxon_succeeded hw VCpu w cap) in * by assumption.
    cbn [outcome trace] in *. injection H as _ <-.
    exists cap. split.
    + rewrite msr_reads_prologue. reflexivity.
    + rewrite <- (next_alloc_after_prologue w). apply load64_after_stamp.
  - intros VCpu' w' H.
    destruct (Z.eq_dec (next_alloc w) NULL) as [Hp|Hp].
    { rewrite vmcs_alloc_failed in H by assumption. discriminate. }
    destruct (readmsr hw IA32_VMX_BASIC) as [cap|] eqn:Hmsr.
    2:{ rewrite vmcs_msr_faulted in H by assumption. discriminate. }
    rewrite (vmcs_succeeded hw VCpu w cap) in * by assumption.
    cbn [outcome trace] in *. injection H as _ <-.
    exists cap. split.
    + rewrite msr_reads_prologue. reflexivity.
    + rewrite <- (next_alloc_after_prologue w). apply load64_after_stamp.
  - intros cap Hp Hmsr Hrev.
    rewrite (vmcs_succeeded hw VCpu w cap) by assumption. cbn [outcome].
    eexists _, _. split; [reflexivity|].
    rewrite <- (next_alloc_after_prologue w), load64_after_stamp. exact Hrev.
Qed.

(** C3: for the start address [a] of a buffer (virtual or physical, so
    that the page-sized tail of the buffer ends inside the 64-bit address
    space), the address [(a + 4095) & ~4095] that VmxAllocateVmxonRegion
    and VmxAllocateVmcsRegion compute is the least multiple of 4096 at or
    above [a]; it lies less than one page beyond [a], so 2 x region-size
    bytes from it fit inside the allocation of 2 x region-size + page-size
    bytes; and the aligned addresses both functions work with and record
    are these roundings, multiples of 4096. *)
Theorem aligned_region_addresses VCpu w :
  (forall a, 0 <= a -> a + ALIGNMENT_PAGE_SIZE <= 2 ^ 64 ->
     least_page_multiple a (align_page a) /\
     align_page a < a + ALIGNMENT_PAGE_SIZE /\
     forall region_size,
       align_page a + 2 * region_size <= a + (2 * region_size + ALIGNMENT_PAGE_SIZE)) /\
  (forall VCpu' w',
     outcome (VmxAllocateVmxonRegion hw VCpu w) = Ret (true, VCpu') w' ->
     In (EvLogDebug "VMXON Region Address : %llx" [align_page (next_alloc w)])
        (trace (VmxAllocateVmxonRegion hw VCpu w)) /\
     VmxonRegionPhysicalAddress VCpu'
       = align_page (VirtualAddressToPhysicalAddress hw (next_alloc w)) /\
     align_page (next_alloc w) mod 4096 = 0 /\
     VmxonRegionPhysicalAddress VCpu' mod 4096 = 0) /\
  (forall VCpu' w',
     outcome (VmxAllocateVmcsRegion hw VCpu w) = Ret (true, VCpu') w' ->
     In (EvLogDebug "VMCS region address : %llx" [align_page (next_alloc w)])
        (trace (VmxAllocateVmcsRegion hw VCpu w)) /\
     VmcsRegionPhysicalAddress VCpu'
       = align_page (VirtualAddressToPhysicalAddress hw (next_alloc w)) /\
     align_page (next_alloc w) mod 4096 = 0 /\
     VmcsRegionPhysicalAddress VCpu' mod 4096 = 0).
Proof.
  split; [|split].
  - intros a H0 H1. split; [|split].
    + apply align_page_least; assumption.
    + apply align_page_lt; assumption.
    + intros region_size. pose proof (align_page_lt a H0 H1). lia.
  - intros VCpu' w' H.
    destruct (Z.eq_dec (next_alloc w) NULL) as [Hp|Hp].
    { rewrite vmxon_alloc_failed in H by assumption. discriminate. }
    destruct (readmsr hw IA32_VMX_BASIC) as [cap|] eqn:Hmsr.
    2:{ rewrite vmxon_msr_faulted in H by assumption. discriminate. }
    destruct (Z.eq_dec (wrap8 (vmx_on hw (align_page
               (VirtualAddressToPhysicalAddress hw (next_alloc w))))) 0) as [Hst|Hst].
    2:{ rewrite (vmxon_instruction_failed hw VCpu w cap) in H by assumption. discriminate. }
    rewrite (vmxon_succeeded hw VCpu w cap) in * by assumption.
    cbn [outcome trace] in *. injection H as <- _.
    cbn [VmxonRegionPhysicalAddress set_VmxonRegionVirtualAddress
         set_VmxonRegionPhysicalAddress].
    split; [|split; [reflexivity|split; apply align_page_multiple]].
    apply in_or_app. right. cbn. auto.
  - intros VCpu' w' H.
    destruct (Z.eq_dec (next_alloc w) NULL) as [Hp|Hp].
    { rewrite vmcs_alloc_failed in H by assumption. discriminate. }
    destruct (readmsr hw IA32_VMX_BASIC) as [cap|] eqn:Hmsr.
    2:{ rewrite vmcs_msr_faulted in H by assumption. discriminate. }
    rewrite (vmcs_succeeded hw VCpu w cap) in * by assumption.
    cbn [outcome trace] in *. injection H as <- _.
    cbn [VmcsRegionPhysicalAddress set_VmcsRegionVirtualAddress
         set_VmcsRegionPhysicalAddress].
    split; [|split; [reflexivity|split; apply align_page_multiple]].
    apply in_or_app. right. cbn. auto.
Qed.

(** C4: VmxAllocateVmxonRegion returns false if and only if the buffer
    allocation fails or the vmxon instruction it executes answers a
    non-zero status; either failure logs its own diagnostic before the
    call returns the same [false]; when the allocation succeeds and vmxon
    answers 0 the call returns true. *)
Theorem VmxAllocateVmxonRegion_result VCpu w :
  (returned (VmxAllocateVmxonRegion hw VCpu w) = Some false <->
     next_alloc w = NULL \/
     exists st, vmxon_status (trace (VmxAllocateVmxonRegion hw VCpu w)) = Some st /\ st <> 0) /\
  (next_alloc w = NULL ->
     returned (VmxAllocateVmxonRegion hw VCpu w) = Some false /\
     logged_errors (trace (VmxAllocateVmxonRegion hw VCpu w))
       = [("Err, couldn't allocate buffer for VMXON region", [])]) /\
  (forall st,
     vmxon_status (trace (VmxAllocateVmxonRegion hw VCpu w)) = Some st -> st <> 0 ->
     returned (VmxAllocateVmxonRegion hw VCpu w) = Some false /\
     logged_errors (trace (VmxAllocateVmxonRegion hw VCpu w))
       = [("Err, executing vmxon instruction failed with status : %d", [st])]) /\
  (next_alloc w <> NULL ->
   vmxon_status (trace (VmxAllocateVmxonRegion hw VCpu w)) = Some 0 ->
     returned (VmxAllocateVmxonRegion hw VCpu w) = Some true /\
     logged_errors (trace (VmxAllocateVmxonRegion hw VCpu w)) = []).
Proof.
  destruct (Z.eq_dec (next_alloc w) NULL) as [Hp|Hp].
  { rewrite vmxon_alloc_failed by assumption. unfold returned. cbn [outcome trace].
    rewrite vmxon_status_prologue, logged_errors_prologue. cbn.
    repeat split; auto; try discriminate; try contradiction. }
  destruct (readmsr hw IA32_VMX_BASIC) as [cap|] eqn:Hmsr.
  2:{ rewrite vmxon_msr_faulted by assumption. unfold returned. cbn [outcome trace].
      rewrite vmxon_status_prologue, logged_errors_prologue. cbn.
      repeat split; try discriminate; try contradiction.
      intros [?|(st & ? & _)]; [contradiction|discriminate]. }
  destruct (Z.eq_dec (wrap8 (vmx_on hw (align_page
             (VirtualAddressToPhysicalAddress hw (next_alloc w))))) 0) as [Hst|Hst].
  - rewrite (vmxon_succeeded hw VCpu w cap) by assumption.
    unfold returned. cbn [outcome trace].
    rewrite vmxon_status_prologue, logged_errors_prologue. cbn. rewrite Hst.
    split; [|split; [|split]].
    + split; [discriminate|].
      intros [?|(st & Hs & Hne)]; [contradiction|]. congruence.
    + contradiction.
    + intros st Hs Hne. congruence.
    + auto.
  - rewrite (vmxon_instruction_failed hw VCpu w cap) by assumption.
    unfold returned. cbn [outcome trace].
    rewrite vmxon_status_prologue, logged_errors_prologue. cbn.
    split; [|split; [|split]].
    + split; [|reflexivity]. intros _. right. eauto.
    + contradiction.
    + intros st Hs Hne. injection Hs as <-. auto.
    + intros _ Hs. congruence.
Qed.

(** C5, amended: when the allocation succeeds, the capability register
    is readable and vmxon is stubbed to answer status 1,
    VmxAllocateVmxonRegion has zeroed, aligned and revision-stamped the
    VMXON region in memory and has handed its aligned physical address to
    vmxon, but it returns false with the processor context exactly as it
    was: the addresses of the region are not stored in it, and nothing in
    it marks the processor active. *)
Theorem vmxon_status_1_context_untouched VCpu w cap :
  next_alloc w <> NULL ->
  readmsr hw IA32_VMX_BASIC = Some cap ->
  (forall pa, vmx_on hw pa = 1) ->
  exists w',
    outcome (VmxAllocateVmxonRegion hw VCpu w) = Ret (false, VCpu) w' /\
    In (EvVmxOn (align_page (VirtualAddressToPhysicalAddress hw (next_alloc w))) 1)
       (trace (VmxAllocateVmxonRegion hw VCpu w)) /\
    load64 (mem w') (align_page (next_alloc w)) = cap mod 2 ^ 31 /\
    align_page (next_alloc w) mod 4096 = 0 /\
    align_page (VirtualAddressToPhysicalAddress hw (next_alloc w)) mod 4096 = 0.
Proof.
  intros Hp Hmsr Hstub.
  assert (Hst : wrap8 (vmx_on hw (align_page
            (VirtualAddressToPhysicalAddress hw (next_alloc w)))) = 1).
  { rewrite Hstub. reflexivity. }
  rewrite (vmxon_instruction_failed hw VCpu w cap) by (try assumption; lia).
  cbn [outcome trace]. eexists. split; [reflexivity|].
  split; [|split; [|split; apply align_page_multiple]].
  - apply in_or_app. right. apply in_or_app. left.
    unfold vmxon_trace_stamped. apply in_or_app. right.
    rewrite Hst. cbn. auto.
  - rewrite <- (next_alloc_after_prologue w). apply load64_after_stamp.
Qed.

(** C7: when the allocation of a structure fails, each operation returns
    false and publishes no address for that structure: the VMXON and VMCS
    allocators leave the context as it was; the stack, MSR bitmap and I/O
    bitmap allocators leave NULL in the virtual-address field of the
    failed structure and write no other field of it. *)
Theorem allocation_failure_publishes_nothing VCpu w :
  (next_alloc w = NULL ->
     (exists w', outcome (VmxAllocateVmxonRegion hw VCpu w) = Ret (false, VCpu) w') /\
     (exists w', outcome (VmxAllocateVmcsRegion hw VCpu w) = Ret (false, VCpu) w') /\
     (exists w', outcome (VmxAllocateVmmStack hw VCpu w)
                 = Ret (false, set_VmmStack NULL VCpu) w') /\
     (exists w', outcome (VmxAllocateMsrBitmap hw VCpu w)
                 = Ret (false, set_MsrBitmapVirtualAddress NULL VCpu) w') /\
     (exists w', outcome (VmxAllocateIoBitmaps hw VCpu w)
                 = Ret (false, set_IoBitmapVirtualAddressA NULL VCpu) w')) /\
  (next_alloc w <> NULL -> second_alloc w = NULL ->
     exists VCpu' w',
       outcome (VmxAllocateIoBitmaps hw VCpu w) = Ret (false, VCpu') w' /\
       IoBitmapVirtualAddressB VCpu' = NULL /\
       IoBitmapPhysicalAddressB VCpu' = IoBitmapPhysicalAddressB VCpu).
Proof.
  split.
  - intros Hp.
    rewrite vmxon_alloc_failed, vmcs_alloc_failed, vmm_stack_alloc_failed,
      msr_bitmap_alloc_failed, io_bitmaps_A_failed by assumption.
    cbn [outcome]. repeat split; eexists; reflexivity.
  - intros Hp Hq. rewrite io_bitmaps_B_failed by assumption. cbn [outcome].
    eexists _, _. split; [reflexivity|]. split; reflexivity.
Qed.

(** C8: after a successful VmxAllocateVmxonRegion or
    VmxAllocateVmcsRegion the virtual-address field of the context holds
    the pointer the allocator returned, which is not the aligned working
    address whenever that pointer is not itself page-aligned, and the
    physical-address field holds the aligned physical address. *)
Theorem region_addresses_recorded VCpu w :
  (forall VCpu' w',
     outcome (VmxAllocateVmxonRegion hw VCpu w) = Ret (true, VCpu') w' ->
     VmxonRegionVirtualAddress VCpu' = next_alloc w /\
     (next_alloc w mod 4096 <> 0 ->
      VmxonRegionVirtualAddress VCpu' <> align_page (next_alloc w)) /\
     VmxonRegionPhysicalAddress VCpu'
       = align_page (VirtualAddressToPhysicalAddress hw (next_alloc w))) /\
  (forall VCpu' w',
     outcome (VmxAllocateVmcsRegion hw VCpu w) = Ret (true, VCpu') w' ->
     VmcsRegionVirtualAddress VCpu' = next_alloc w /\
     (next_alloc w mod 4096 <> 0 ->
      VmcsRegionVirtualAddress VCpu' <> align_page (next_alloc w)) /\
     VmcsRegionPhysicalAddress VCpu'
       = align_page (VirtualAddressToPhysicalAddress hw (next_alloc w))).
Proof.
  split.
  - intros VCpu' w' H.
    destruct (Z.eq_dec (next_alloc w) NULL) as [Hp|Hp].
    { rewrite vmxon_alloc_failed in H by assumption. discriminate. }
    destruct (readmsr hw IA32_VMX_BASIC) as [cap|] eqn:Hmsr.
    2:{ rewrite vmxon_msr_faulted in H by assumption. discriminate. }
    destruct (Z.eq_dec (wrap8 (vmx_on hw (align_page
               (VirtualAddressToPhysicalAddress hw (next_alloc w))))) 0) as [Hst|Hst].
    2:{ rewrite (vmxon_instruction_failed hw VCpu w cap) in H by assumption. discriminate. }
    rewrite (vmxon_succeeded hw VCpu w cap) in H by assumption.
    cbn [outcome] in H. injection H as <- _.
    cbn [VmxonRegionVirtualAddress VmxonRegionPhysicalAddress
         set_VmxonRegionVirtualAddress set_VmxonRegionPhysicalAddress].
    split; [reflexivity|split; [|reflexivity]].
    intros Hmod Heq. rewrite Heq in Hmod. apply Hmod, align_page_multiple.
  - intros VCpu' w' H.
    destruct (Z.eq_dec (next_alloc w) NULL) as [Hp|Hp].
    { rewrite vmcs_alloc_failed in H by assumption. discriminate. }
    destruct (readmsr hw IA32_VMX_BASIC) as [cap|] eqn:Hmsr.
    2:{ rewrite vmcs_msr_faulted in H by assumption. discriminate. }
    rewrite (vmcs_succeeded hw VCpu w cap) in H by assumption.
    cbn [outcome] in H. injection H as <- _.
    cbn [VmcsRegionVirtualAddress VmcsRegionPhysicalAddress
         set_VmcsRegionVirtualAddress set_VmcsRegionPhysicalAddress].
    split; [reflexivity|split; [|reflexivity]].
    intros Hmod Heq. rewrite Heq in Hmod. apply Hmod, align_page_multiple.
Qed.

(** C9: when the buffer allocation succeeds and the vmxon instruction the
    call executes answers a non-zero status, VmxAllocateVmxonRegion
    returns false with the processor context exactly as it was: no field
    of it receives the pointer to the allocated buffer. *)
Theorem vmxon_failure_keeps_context VCpu w st :
  next_alloc w <> NULL ->
  vmxon_status (trace (VmxAllocateVmxonRegion hw VCpu w)) = Some st ->
  st <> 0 ->
  exists w', outcome (VmxAllocateVmxonRegion hw VCpu w) = Ret (false, VCpu) w'.
Proof.
  intros Hp Hs Hne.
  destruct (readmsr hw IA32_VMX_BASIC) as [cap|] eqn:Hmsr.
  2:{ rewrite vmxon_msr_faulted in Hs by assumption.
      cbn [trace] in Hs. rewrite vmxon_status_prologue in Hs. discriminate. }
  destruct (Z.eq_dec (wrap8 (vmx_on hw (align_page
             (VirtualAddressToPhysicalAddress hw (next_alloc w))))) 0) as [Hst|Hst].
  - rewrite (vmxon_succeeded hw VCpu w cap) in Hs by assumption.
    cbn [trace] in Hs. rewrite vmxon_status_prologue in Hs. cbn in Hs. congruence.
  - rewrite (vmxon_instruction_failed hw VCpu w cap) by assumption.
    cbn [outcome]. eexists; reflexivity.
Qed.

(** C10, amended: when the allocation of I/O bitmap A succeeds and that
    of bitmap B fails, VmxAllocateIoBitmaps returns false; the two
    bitmap-A fields hold the published addresses of bitmap A,
    IoBitmapVirtualAddressB is overwritten with NULL, and no other field
    is modified (so, when IoBitmapVirtualAddressB was NULL on entry, only
    the two bitmap-A fields differ). *)
Theorem io_bitmap_B_failure_frame VCpu w :
  next_alloc w <> NULL ->
  second_alloc w = NULL ->
  exists VCpu' w',
    outcome (VmxAllocateIoBitmaps hw VCpu w) = Ret (false, VCpu') w' /\
    IoBitmapVirtualAddressA VCpu' = next_alloc w /\
    IoBitmapPhysicalAddressA VCpu' = VirtualAddressToPhysicalAddress hw (next_alloc w) /\
    VCpu' = set_IoBitmapVirtualAddressB NULL
              (set_IoBitmapPhysicalAddressA
                 (VirtualAddressToPhysicalAddress hw (next_alloc w))
                 (set_IoBitmapVirtualAddressA (next_alloc w) VCpu)) /\
    (IoBitmapVirtualAddressB VCpu = NULL ->
     VCpu' = set_IoBitmapPhysicalAddressA
               (VirtualAddressToPhysicalAddress hw (next_alloc w))
               (set_IoBitmapVirtualAddressA (next_alloc w) VCpu)).
Proof.
  intros Hp Hq. rewrite io_bitmaps_B_failed by assumption. cbn [outcome].
  eexists _, _. split; [reflexivity|].
  split; [reflexivity|]. split; [reflexivity|]. split; [reflexivity|].
  intros HB. apply set_IoBitmapVirtualAddressB_same. exact HB.
Qed.

(** C6, amended: when the MSR read primitive faults only for index
    0xC0000080 and the allocation succeeds, that index is outside the
    probed range 0..4095 and is never read, every one of the 4096 bits of
    the bitmap VmxAllocateInvalidMsrBimap returns is clear, and the bit
    0xC0000080 positions past the start of the bitmap lies outside it and
    reads as it did before the call. *)
Theorem efer_fault_leaves_bitmap_clear w :
  next_alloc w <> NULL ->
  (forall i, readmsr hw i = None <-> i = 0xC0000080) ->
  exists w',
    outcome (VmxAllocateInvalidMsrBimap hw w) = Ret (next_alloc w) w' /\
    ~ In 0xC0000080 (fst <$> msr_reads (trace (VmxAllocateInvalidMsrBimap hw w))) /\
    (forall i, 0 <= i < 4096 -> TestBit (mem w') i (next_alloc w) = false) /\
    TestBit (mem w') 0xC0000080 (next_alloc w) = TestBit (mem w) 0xC0000080 (next_alloc w).
Proof.
  intros Hp Hstub. rewrite prober_succeeded by assumption.
  cbn [outcome trace]. eexists. split; [reflexivity|]. split; [|split].
  - cbn [msr_reads]. rewrite msr_reads_probe_events.
    rewrite <- list_fmap_compose. intros Hin.
    apply list_elem_of_In, list_elem_of_fmap in Hin.
    destruct Hin as (i & Hi & Hin). cbn in Hi.
    apply elem_of_seqZ in Hin. lia.
  - intros i Hi. rewrite TestBit_probed_world by assumption.
    unfold faults. destruct (readmsr hw i) eqn:E; [reflexivity|].
    apply Hstub in E. lia.
  - apply TestBit_probed_world_beyond. lia.
Qed.
End Claims.


(** * The claims at concrete inputs *)

Lemma VmxAllocateInvalidMsrBimap_bitmap_witness :
  next_alloc (world_with [0x20000]) <> NULL /\
  exists w',
    outcome (VmxAllocateInvalidMsrBimap vmxon_succeeds (world_with [0x20000]))
      = Ret 0x20000 w' /\
    TestBit (mem w') 0x480 0x20000 = false /\
    TestBit (mem w') 0x481 0x20000 = true.
Proof.
  split; [discriminate|].
  destruct (VmxAllocateInvalidMsrBimap_bitmap vmxon_succeeds (world_with [0x20000]))
    as (p & w' & Ho & Hp & _ & _ & H).
  destruct (H ltac:(discriminate)) as (_ & Hbits).
  subst p. exists w'. split; [exact Ho|]. split.
  - apply (Hbits 0x480 ltac:(lia)). eexists. reflexivity.
  - apply (Hbits 0x481 ltac:(lia)). reflexivity.
Defined.

Lemma region_revision_identifier_witness :
  (exists VCpu' w',
     outcome (VmxAllocateVmxonRegion vmxon_succeeds empty_context (world_with [0x20010]))
       = Ret (true, VCpu') w' /\
     load64 (mem w') 0x21000 = 31) /\
  (exists VCpu' w',
     outcome (VmxAllocateVmcsRegion vmxon_succeeds empty_context (world_with [0x20010]))
       = Ret (true, VCpu') w' /\
     load64 (mem w') 0x21000 = 31).
Proof.
  split.
  - eexists _, _. split; [reflexivity|].
    destruct (proj1 (region_revision_identifier vmxon_succeeds empty_context
                       (world_with [0x20010])) _ _ eq_refl) as (cap & Hr & Hl).
    vm_compute in Hr. injection Hr as <-. exact Hl.
  - apply (proj2 (proj2 (region_revision_identifier vmxon_succeeds empty_context
                           (world_with [0x20010]))) 0x00DA04000000001F).
    + discriminate.
    + reflexivity.
    + reflexivity.
Defined.

Lemma aligned_region_addresses_witness :
  (0 <= 0x20010 /\ 0x20010 + ALIGNMENT_PAGE_SIZE <= 2 ^ 64) /\
  least_page_multiple 0x20010 0x21000 /\
  0x21000 + 2 * 4096 <= 0x20010 + (2 * 4096 + ALIGNMENT_PAGE_SIZE) /\
  (exists VCpu' w',
     outcome (VmxAllocateVmxonRegion vmxon_succeeds empty_context (world_with [0x20010]))
       = Ret (true, VCpu') w' /\
     VmxonRegionPhysicalAddress VCpu' = 0x11000) /\
  (exists VCpu' w',
     outcome (VmxAllocateVmcsRegion vmxon_succeeds empty_context (world_with [0x20010]))
       = Ret (true, VCpu') w' /\
     VmcsRegionPhysicalAddress VCpu' = 0x11000).
Proof.
  pose proof (aligned_region_addresses vmxon_succeeds empty_context (world_with [0x20010]))
    as (Hround & Hvmxon & Hvmcs).
  assert (H0 : 0 <= 0x20010) by lia.
  assert (H1 : 0x20010 + ALIGNMENT_PAGE_SIZE <= 2 ^ 64) by (vm_compute; discriminate).
  destruct (Hround 0x20010 H0 H1) as (Hleast & _ & Hfit).
  split; [split; assumption|].
  split; [exact Hleast|].
  split; [exact (Hfit 4096)|].
  split.
  - eexists _, _. split; [reflexivity|].
    exact (proj1 (proj2 (Hvmxon _ _ eq_refl))).
  - eexists _, _. split; [reflexivity|].
    exact (proj1 (proj2 (Hvmcs _ _ eq_refl))).
Defined.

Lemma VmxAllocateVmxonRegion_result_witness :
  (returned (VmxAllocateVmxonRegion vmxon_succeeds empty_context (world_with []))
     = Some false /\
   logged_errors (trace (VmxAllocateVmxonRegion vmxon_succeeds empty_context (world_with [])))
     = [("Err, couldn't allocate buffer for VMXON region", [])]) /\
  (returned (VmxAllocateVmxonRegion vmxon_fails empty_context (world_with [0x20010]))
     = Some false /\
   logged_errors (trace (VmxAllocateVmxonRegion vmxon_fails empty_context (world_with [0x20010])))
     = [("Err, executing vmxon instruction failed with status : %d", [1])]) /\
  (returned (VmxAllocateVmxonRegion vmxon_succeeds empty_context (world_with [0x20010]))
     = Some true /\
   logged_errors (trace (VmxAllocateVmxonRegion vmxon_succeeds empty_context
                           (world_with [0x20010]))) = []).
Proof.
  split; [|split].
  - apply (proj1 (proj2 (VmxAllocateVmxonRegion_result vmxon_succeeds empty_context
                           (world_with [])))).
    reflexivity.
  - apply (proj1 (proj2 (proj2 (VmxAllocateVmxonRegion_result vmxon_fails empty_context
                                  (world_with [0x20010])))) 1).
    + reflexivity.
    + discriminate.
  - apply (proj2 (proj2 (proj2 (VmxAllocateVmxonRegion_result vmxon_succeeds empty_context
                                  (world_with [0x20010]))))).
    + discriminate.
    + reflexivity.
Defined.

Lemma vmxon_status_1_context_untouched_witness :
  exists w',
    outcome (VmxAllocateVmxonRegion vmxon_fails empty_context (world_with [0x20010]))
      = Ret (false, empty_context) w' /\
    In (EvVmxOn 0x11000 1)
       (trace (VmxAllocateVmxonRegion vmxon_fails empty_context (world_with [0x20010]))) /\
    load64 (mem w') 0x21000 = 31.
Proof.
  destruct (vmxon_status_1_context_untouched vmxon_fails empty_context
              (world_with [0x20010]) 0x00DA04000000001F)
    as (w' & Ho & Hin & Hl & _).
  - discriminate.
  - reflexivity.
  - intros pa. reflexivity.
  - exists w'. split; [exact Ho|]. split; [exact Hin|exact Hl].
Defined.

Lemma allocation_failure_publishes_nothing_witness :
  (exists w', outcome (VmxAllocateVmmStack vmxon_succeeds stale_context (world_with []))
              = Ret (false, set_VmmStack NULL stale_context) w') /\
  (exists VCpu' w',
     outcome (VmxAllocateIoBitmaps vmxon_succeeds stale_context (world_with [0x20000]))
       = Ret (false, VCpu') w' /\
     IoBitmapVirtualAddressB VCpu' = NULL /\
     IoBitmapPhysicalAddressB VCpu' = NULL).
Proof.
  pose proof (allocation_failure_publishes_nothing vmxon_succeeds stale_context
                (world_with [])) as (Hfirst & _).
  pose proof (allocation_failure_publishes_nothing vmxon_succeeds stale_context
                (world_with [0x20000])) as (_ & Hsecond).
  split.
  - exact (proj1 (proj2 (proj2 (Hfirst eq_refl)))).
  - apply Hsecond; [discriminate|reflexivity].
Defined.

Lemma region_addresses_recorded_witness :
  exists VCpu' w',
    outcome (VmxAllocateVmxonRegion vmxon_succeeds empty_context (world_with [0x20010]))
      = Ret (true, VCpu') w' /\
    VmxonRegionVirtualAddress VCpu' = 0x20010 /\
    VmxonRegionVirtualAddress VCpu' <> 0x21000 /\
    VmxonRegionPhysicalAddress VCpu' = 0x11000.
Proof.
  eexists _, _. split; [reflexivity|].
  destruct (proj1 (region_addresses_recorded vmxon_succeeds empty_context
                     (world_with [0x20010])) _ _ eq_refl) as (Hva & Hne & Hpa).
  split; [exact Hva|]. split; [|exact Hpa].
  apply Hne. discriminate.
Defined.

Lemma vmxon_failure_keeps_context_witness :
  exists w',
    outcome (VmxAllocateVmxonRegion vmxon_fails stale_context (world_with [0x20010]))
      = Ret (false, stale_context) w'.
Proof.
  apply (vmxon_failure_keeps_context vmxon_fails stale_context (world_with [0x20010]) 1).
  - discriminate.
  - reflexivity.
  - discriminate.
Defined.

Lemma io_bitmap_B_failure_frame_witness :
  exists VCpu' w',
    outcome (VmxAllocateIoBitmaps vmxon_succeeds stale_context (world_with [0x20000]))
      = Ret (false, VCpu') w' /\
    IoBitmapVirtualAddressA VCpu' = 0x20000 /\
    IoBitmapPhysicalAddressA VCpu' = 0x10000 /\
    IoBitmapVirtualAddressB VCpu' = NULL.
Proof.
  destruct (io_bitmap_B_failure_frame vmxon_succeeds stale_context (world_with [0x20000]))
    as (v & w' & Ho & Hva & Hpa & Hv & _).
  - discriminate.
  - reflexivity.
  - exists v, w'. split; [exact Ho|]. split; [exact Hva|]. split; [exact Hpa|].
    rewrite Hv. reflexivity.
Defined.

Lemma efer_fault_leaves_bitmap_clear_witness :
  exists w',
    outcome (VmxAllocateInvalidMsrBimap efer_faults (world_with [0x20000]))
      = Ret 0x20000 w' /\
    TestBit (mem w') 0x80 0x20000 = false.
Proof.
  destruct (efer_fault_leaves_bitmap_clear efer_faults (world_with [0x20000]))
    as (w' & Ho & _ & Hbits & _).
  - discriminate.
  - intros i. cbn. unfold msr_faulting_at_C0000080.
    destruct (Z.eqb_spec i 0xC0000080); split; congruence.
  - exists w'. split; [exact Ho|]. apply Hbits. lia.
Defined.

(** * Where the code departs from the claims *)

(** C5: with vmxon stubbed to answer status 1, the call reports failure
    but neither address field of the VMXON region is populated. *)
Lemma vmxon_status_1_addresses_not_populated :
  ~ (exists VCpu' w',
       outcome (VmxAllocateVmxonRegion vmxon_fails empty_context (world_with [0x20010]))
         = Ret (false, VCpu') w' /\
       (VmxonRegionVirtualAddress VCpu' <> NULL \/
        VmxonRegionPhysicalAddress VCpu' <> NULL)).
Proof.
  intros (v & w' & Ho & Hf).
  rewrite (vmxon_instruction_failed vmxon_fails empty_context (world_with [0x20010])
             0x00DA04000000001F) in Ho by (reflexivity || discriminate).
  cbn [outcome] in Ho. injection Ho as <- _.
  destruct Hf as [Hf|Hf]; apply Hf; reflexivity.
Qed.

(** C6: with the MSR read stubbed to fault only at 0xC0000080, the bit
    at index 0xC0000080 counted from the returned bitmap is not set. *)
Lemma efer_fault_bit_not_set :
  ~ (exists p w',
       outcome (VmxAllocateInvalidMsrBimap efer_faults (world_with [0x20000])) = Ret p w' /\
       TestBit (mem w') 0xC0000080 p = true).
Proof.
  intros (p & w' & Ho & Hb).
  rewrite prober_succeeded in Ho by discriminate.
  cbn [outcome] in Ho. injection Ho as <- <-.
  vm_compute in Hb. discriminate.
Qed.

(** C10: when bitmap A is allocated and bitmap B is not, a context that
    held an address in IoBitmapVirtualAddressB does not keep it. *)
Lemma io_bitmap_B_failure_modifies_B :
  ~ (exists VCpu' w',
       outcome (VmxAllocateIoBitmaps vmxon_succeeds stale_context (world_with [0x20000]))
         = Ret (false, VCpu') w' /\
       IoBitmapVirtualAddressB VCpu' = IoBitmapVirtualAddressB stale_context).
Proof.
  intros (v & w' & Ho & Hf).
  rewrite io_bitmaps_B_failed in Ho by (reflexivity || discriminate).
  cbn [outcome] in Ho. injection Ho as <- _.
  discriminate.
Qed.

(** * Further properties of the functions *)

Section More_memory.
Implicit Type m : gmap Z Z.

Lemma load8_store_le_outside m n : forall a v x,
  x < a \/ a + Z.of_nat n <= x -> load8 (store_le m a n v) x = load8 m x.
Proof.
  revert m. induction n as [|n IH]; intros m a v x Hx; cbn [store_le].
  - reflexivity.
  - rewrite IH by lia. apply load8_store8_ne. lia.
Qed.

Lemma load_le_ext m1 m2 n : forall a,
  (forall x, a <= x < a + Z.of_nat n -> load8 m1 x = load8 m2 x) ->
  load_le m1 a n = load_le m2 a n.
Proof.
  induction n as [|n IH]; intros a H; cbn [load_le]; [reflexivity|].
  rewrite (H a) by lia. rewrite (IH (a + 1)) by (intros x Hx; apply H; lia).
  reflexivity.
Qed.

Lemma load8_zero_bytes_in m a n x :
  a <= x < a + n -> load8 (zero_bytes m a (Z.to_nat n)) x = 0.
Proof.
  intros Hx. rewrite load8_zero_bytes.
  destruct (Z.leb_spec a x), (Z.ltb_spec x (a + Z.of_nat (Z.to_nat n)));
    cbn [andb]; try reflexivity; lia.
Qed.

Lemma load8_zero_bytes_out m a n x :
  x < a \/ a + n <= x -> load8 (zero_bytes m a (Z.to_nat n)) x = load8 m x.
Proof.
  intros Hx. rewrite load8_zero_bytes.
  destruct (Z.leb_spec a x), (Z.ltb_spec x (a + Z.of_nat (Z.to_nat n)));
    cbn [andb]; try reflexivity; lia.
Qed.
End More_memory.

Section Pool_allocators.
Context {R : Type}.
Variable hw : Platform.
Implicit Type VCpu : VIRTUAL_MACHINE_STATE R.
Implicit Type w : World.

Lemma load8_after_zeroed_alloc_in size w x :
  next_alloc w <= x < next_alloc w + size ->
  load8 (mem (after_zeroed_alloc size w)) x = 0.
Proof. intros Hx. cbn [after_zeroed_alloc mem set_mem]. apply load8_zero_bytes_in, Hx. Qed.

Lemma load8_after_zeroed_alloc_out size w x :
  x < next_alloc w \/ next_alloc w + size <= x ->
  load8 (mem (after_zeroed_alloc size w)) x = load8 (mem w) x.
Proof. intros Hx. cbn [after_zeroed_alloc mem set_mem]. apply load8_zero_bytes_out, Hx. Qed.

Lemma mem_after_alloc w : mem (after_alloc w) = mem w.
Proof. reflexivity. Qed.

Lemma zeroed_after_zeroed_alloc size w :
  zeroed (mem (after_zeroed_alloc size w)) (next_alloc w) size.
Proof. intros x Hx. apply load8_after_zeroed_alloc_in, Hx. Qed.

Lemma same_outside_after_zeroed_alloc size w :
  same_outside (mem w) (mem (after_zeroed_alloc size w)) (next_alloc w) size.
Proof. intros x Hx. apply load8_after_zeroed_alloc_out, Hx. Qed.

(** X1: VmxAllocateVmmStack always returns, having asked the pool once
    for VMM_STACK_SIZE bytes; it stores the pool's answer in VmmStack and
    touches no other field; it returns true exactly when the answer is not
    NULL.  On failure it logs its diagnostic and writes no memory; on
    success every byte of the stack is zero, every byte outside it is as
    before, and nothing is logged as an error. *)
Theorem VmxAllocateVmmStack_behaviour VCpu w :
  exists b w',
    outcome (VmxAllocateVmmStack hw VCpu w)
      = Ret (b, set_VmmStack (next_alloc w) VCpu) w' /\
    (b = true <-> next_alloc w <> NULL) /\
    allocations (trace (VmxAllocateVmmStack hw VCpu w))
      = [(VMM_STACK_SIZE hw, next_alloc w)] /\
    allocs w' = tl (allocs w) /\
    (next_alloc w = NULL ->
       mem w' = mem w /\
       logged_errors (trace (VmxAllocateVmmStack hw VCpu w))
         = [("Err, insufficient memory in allocationg vmm stack", [])]) /\
    (next_alloc w <> NULL ->
       zeroed (mem w') (next_alloc w) (VMM_STACK_SIZE hw) /\
       same_outside (mem w) (mem w') (next_alloc w) (VMM_STACK_SIZE hw) /\
       logged_errors (trace (VmxAllocateVmmStack hw VCpu w)) = []).
Proof.
  destruct (Z.eq_dec (next_alloc w) NULL) as [Hp|Hp].
  - rewrite vmm_stack_alloc_failed by assumption. rewrite Hp.
    exists false, (after_alloc w). cbn [outcome trace allocations logged_errors].
    split; [reflexivity|]. split; [split; [discriminate|contradiction]|].
    split; [reflexivity|]. split; [reflexivity|].
    split; [auto|contradiction].
  - rewrite vmm_stack_succeeded by assumption.
    exists true, (after_zeroed_alloc (VMM_STACK_SIZE hw) w).
    cbn [outcome trace allocations logged_errors].
    split; [reflexivity|]. split; [tauto|].
    split; [reflexivity|]. split; [reflexivity|].
    split; [contradiction|]. intros _.
    split; [apply zeroed_after_zeroed_alloc|].
    split; [apply same_outside_after_zeroed_alloc|reflexivity].
Qed.

(** X2: VmxAllocateMsrBitmap always returns, having asked the pool once
    for one page; it returns true exactly when the answer is not NULL.  On
    success the context differs from the one passed in only in
    MsrBitmapVirtualAddress, which holds the answer, and
    MsrBitmapPhysicalAddress, which holds its translation; all 4096 bytes
    of the page are zero and every byte outside it is as before.  On
    failure only MsrBitmapVirtualAddress is written (with NULL), no memory
    is written and the diagnostic is logged. *)
Theorem VmxAllocateMsrBitmap_behaviour VCpu w :
  exists b VCpu' w',
    outcome (VmxAllocateMsrBitmap hw VCpu w) = Ret (b, VCpu') w' /\
    (b = true <-> next_alloc w <> NULL) /\
    allocations (trace (VmxAllocateMsrBitmap hw VCpu w)) = [(4096, next_alloc w)] /\
    allocs w' = tl (allocs w) /\
    (next_alloc w = NULL ->
       VCpu' = set_MsrBitmapVirtualAddress NULL VCpu /\
       mem w' = mem w /\
       logged_errors (trace (VmxAllocateMsrBitmap hw VCpu w))
         = [("Err, insufficient memory in allocationg MSR Bitmaps", [])]) /\
    (next_alloc w <> NULL ->
       VCpu' = set_MsrBitmapPhysicalAddress
                 (VirtualAddressToPhysicalAddress hw (next_alloc w))
                 (set_MsrBitmapVirtualAddress (next_alloc w) VCpu) /\
       zeroed (mem w') (next_alloc w) 4096 /\
       same_outside (mem w) (mem w') (next_alloc w) 4096 /\
       logged_errors (trace (VmxAllocateMsrBitmap hw VCpu w)) = []).
Proof.
  destruct (Z.eq_dec (next_alloc w) NULL) as [Hp|Hp].
  - rewrite msr_bitmap_alloc_failed by assumption. rewrite Hp.
    exists false, (set_MsrBitmapVirtualAddress NULL VCpu), (after_alloc w).
    cbn [outcome trace allocations logged_errors].
    split; [reflexivity|]. split; [split; [discriminate|contradiction]|].
    split; [reflexivity|]. split; [reflexivity|].
    split; [auto|contradiction].
  - rewrite msr_bitmap_succeeded by assumption.
    eexists true, _, (after_zeroed_alloc PAGE_SIZE w).
    cbn [outcome trace allocations logged_errors].
    split; [reflexivity|]. split; [tauto|].
    split; [reflexivity|]. split; [reflexivity|].
    split; [contradiction|]. intros _.
    split; [reflexivity|].
    change 4096 with PAGE_SIZE.
    split; [exact (zeroed_after_zeroed_alloc PAGE_SIZE w)|].
    split; [exact (same_outside_after_zeroed_alloc PAGE_SIZE w)|reflexivity].
Qed.

(** X3: when both requests are answered, VmxAllocateIoBitmaps returns
    true; the context differs from the one passed in only in the four I/O
    bitmap fields, which hold the two answers and their translations; both
    pages are zero in every byte, also when the two answers overlap, and
    every byte outside the two pages is as before; two answers of the
    memory service are consumed. *)
Theorem VmxAllocateIoBitmaps_success VCpu w :
  next_alloc w <> NULL ->
  second_alloc w <> NULL ->
  exists w',
    outcome (VmxAllocateIoBitmaps hw VCpu w)
      = Ret (true,
             set_IoBitmapPhysicalAddressB
               (VirtualAddressToPhysicalAddress hw (second_alloc w))
               (set_IoBitmapVirtualAddressB (second_alloc w)
                  (set_IoBitmapPhysicalAddressA
                     (VirtualAddressToPhysicalAddress hw (next_alloc w))
                     (set_IoBitmapVirtualAddressA (next_alloc w) VCpu)))) w' /\
    zeroed (mem w') (next_alloc w) 4096 /\
    zeroed (mem w') (second_alloc w) 4096 /\
    (forall x,
       x < next_alloc w \/ next_alloc w + 4096 <= x ->
       x < second_alloc w \/ second_alloc w + 4096 <= x ->
       load8 (mem w') x = load8 (mem w) x) /\
    allocs w' = tl (tl (allocs w)) /\
    logged_errors (trace (VmxAllocateIoBitmaps hw VCpu w)) = [].
Proof.
  intros Hp Hq. rewrite io_bitmaps_succeeded by assumption.
  cbn [outcome trace]. eexists. split; [reflexivity|].
  assert (Hn : next_alloc (after_zeroed_alloc PAGE_SIZE w) = second_alloc w) by reflexivity.
  split; [|split; [|split; [|split]]].
  - intros x Hx.
    destruct (Z_lt_dec x (second_alloc w)) as [Hlt|Hge];
      [|destruct (Z_le_dec (second_alloc w + 4096) x) as [Hle|Hgt]].
    + rewrite load8_after_zeroed_alloc_out by (rewrite Hn; lia).
      apply load8_after_zeroed_alloc_in. exact Hx.
    + rewrite load8_after_zeroed_alloc_out by (rewrite Hn; unfold PAGE_SIZE; lia).
      apply load8_after_zeroed_alloc_in. exact Hx.
    + apply load8_after_zeroed_alloc_in. rewrite Hn. unfold PAGE_SIZE. lia.
  - intros x Hx. apply load8_after_zeroed_alloc_in. rewrite Hn. exact Hx.
  - intros x Ha Hb.
    rewrite load8_after_zeroed_alloc_out by (rewrite Hn; exact Hb).
    apply load8_after_zeroed_alloc_out. exact Ha.
  - reflexivity.
  - reflexivity.
Qed.

(** X4: VmxAllocateIoBitmaps always returns, and returns true exactly when
    both requests are answered.  When the request for bitmap A fails, the
    request for bitmap B is never made: one answer is consumed and no
    memory is written.  When only the request for bitmap B fails, two
    answers are consumed and page A stays allocated and zeroed; each
    failure logs its own diagnostic. *)
Theorem VmxAllocateIoBitmaps_requests VCpu w :
  (returned (VmxAllocateIoBitmaps hw VCpu w) = Some true <->
     next_alloc w <> NULL /\ second_alloc w <> NULL) /\
  (returned (VmxAllocateIoBitmaps hw VCpu w) = Some false <->
     next_alloc w = NULL \/ second_alloc w = NULL) /\
  (next_alloc w = NULL ->
     allocations (trace (VmxAllocateIoBitmaps hw VCpu w)) = [(4096, NULL)] /\
     allocs (final_world (VmxAllocateIoBitmaps hw VCpu w)) = tl (allocs w) /\
     mem (final_world (VmxAllocateIoBitmaps hw VCpu w)) = mem w /\
     logged_errors (trace (VmxAllocateIoBitmaps hw VCpu w))
       = [("Err, insufficient memory in allocationg I/O Bitmaps A", [])]) /\
  (next_alloc w <> NULL -> second_alloc w = NULL ->
     allocations (trace (VmxAllocateIoBitmaps hw VCpu w))
       = [(4096, next_alloc w); (4096, NULL)] /\
     allocs (final_world (VmxAllocateIoBitmaps hw VCpu w)) = tl (tl (allocs w)) /\
     zeroed (mem (final_world (VmxAllocateIoBitmaps hw VCpu w))) (next_alloc w) 4096 /\
     same_outside (mem w) (mem (final_world (VmxAllocateIoBitmaps hw VCpu w)))
                  (next_alloc w) 4096 /\
     logged_errors (trace (VmxAllocateIoBitmaps hw VCpu w))
       = [("Err, insufficient memory in allocationg I/O Bitmaps B", [])]).
Proof.
  destruct (Z.eq_dec (next_alloc w) NULL) as [Hp|Hp].
  - rewrite io_bitmaps_A_failed by assumption.
    unfold returned, final_world. cbn [outcome trace allocations logged_errors].
    split; [split; [discriminate|tauto]|].
    split; [split; auto|].
    split; [auto|contradiction].
  - destruct (Z.eq_dec (second_alloc w) NULL) as [Hq|Hq].
    + rewrite io_bitmaps_B_failed by assumption.
      unfold returned, final_world, io_trace_A.
      cbn [outcome trace app allocations logged_errors].
      split; [split; [discriminate|tauto]|].
      split; [split; auto|].
      split; [contradiction|]. intros _ _.
      split; [reflexivity|]. split; [reflexivity|].
      rewrite mem_after_alloc. change 4096 with PAGE_SIZE.
      split; [exact (zeroed_after_zeroed_alloc PAGE_SIZE w)|].
      split; [exact (same_outside_after_zeroed_alloc PAGE_SIZE w)|reflexivity].
    + rewrite io_bitmaps_succeeded by assumption.
      unfold returned, final_world. cbn [outcome].
      split; [split; auto|].
      split; [split; [discriminate|tauto]|].
      split; contradiction.
Qed.
End Pool_allocators.

Section Region_allocators.
Context {R : Type}.
Variable hw : Platform.
Implicit Type VCpu : VIRTUAL_MACHINE_STATE R.
Implicit Type w : World.

Lemma allocs_after_prologue w : allocs (after_prologue w) = allocs w.
Proof. unfold after_prologue. destruct (_ <? _); reflexivity. Qed.

Lemma allocations_prologue w tr :
  allocations (prologue_trace w ++ tr) = allocations tr.
Proof. unfold prologue_trace. destruct (_ <? _); reflexivity. Qed.

Lemma vmxon_calls_prologue w tr :
  vmxon_calls (prologue_trace w ++ tr) = vmxon_calls tr.
Proof. unfold prologue_trace. destruct (_ <? _); reflexivity. Qed.

(** The runs of VmxAllocateVmxonRegion, path by path. *)
Lemma vmxon_paths VCpu w :
  (next_alloc w = NULL /\
   VmxAllocateVmxonRegion hw VCpu w =
   mkRun (prologue_trace w ++
          [EvAllocContiguous (region_alloc_size (VMXON_SIZE hw)) NULL;
           EvLogError "Err, couldn't allocate buffer for VMXON region" []])
         (Ret (false, VCpu) (after_alloc (after_prologue w)))) \/
  (next_alloc w <> NULL /\ readmsr hw IA32_VMX_BASIC = None /\
   VmxAllocateVmxonRegion hw VCpu w =
   mkRun (prologue_trace w ++ vmxon_trace_allocated hw w ++
          [EvReadMsr IA32_VMX_BASIC None])
         (Raise (after_zeroed_alloc (region_alloc_size (VMXON_SIZE hw)) (after_prologue w)))) \/
  (exists cap,
     next_alloc w <> NULL /\ readmsr hw IA32_VMX_BASIC = Some cap /\
     wrap8 (vmx_on hw (align_page (VirtualAddressToPhysicalAddress hw (next_alloc w)))) <> 0 /\
     VmxAllocateVmxonRegion hw VCpu w =
     mkRun (prologue_trace w ++ vmxon_trace_stamped hw cap w ++
            [EvLogError "Err, executing vmxon instruction failed with status : %d"
               [wrap8 (vmx_on hw (align_page
                         (VirtualAddressToPhysicalAddress hw (next_alloc w))))]])
           (Ret (false, VCpu)
                (after_stamp (region_alloc_size (VMXON_SIZE hw)) cap (after_prologue w)))) \/
  (exists cap,
     next_alloc w <> NULL /\ readmsr hw IA32_VMX_BASIC = Some cap /\
     wrap8 (vmx_on hw (align_page (VirtualAddressToPhysicalAddress hw (next_alloc w)))) = 0 /\
     VmxAllocateVmxonRegion hw VCpu w =
     mkRun (prologue_trace w ++ vmxon_trace_stamped hw cap w)
           (Ret (true,
                 set_VmxonRegionVirtualAddress (next_alloc w)
                   (set_VmxonRegionPhysicalAddress
                      (align_page (VirtualAddressToPhysicalAddress hw (next_alloc w))) VCpu))
                (after_stamp (region_alloc_size (VMXON_SIZE hw)) cap (after_prologue w)))).
Proof.
  destruct (Z.eq_dec (next_alloc w) NULL) as [Hp|Hp].
  { left. split; [assumption|]. apply vmxon_alloc_failed; assumption. }
  destruct (readmsr hw IA32_VMX_BASIC) as [cap|] eqn:Hmsr.
  2:{ right; left. split; [assumption|]. split; [reflexivity|].
      apply vmxon_msr_faulted; assumption. }
  destruct (Z.eq_dec (wrap8 (vmx_on hw (align_page
             (VirtualAddressToPhysicalAddress hw (next_alloc w))))) 0) as [Hst|Hst].
  - right; right; right. exists cap. repeat (split; [assumption || reflexivity|]).
    apply vmxon_succeeded; assumption.
  - right; right; left. exists cap. repeat (split; [assumption || reflexivity|]).
    apply vmxon_instruction_failed; assumption.
Qed.

(** The runs of VmxAllocateVmcsRegion, path by path. *)
Lemma vmcs_paths VCpu w :
  (next_alloc w = NULL /\
   VmxAllocateVmcsRegion hw VCpu w =
   mkRun (prologue_trace w ++
          [EvAllocContiguous (region_alloc_size (VMCS_SIZE hw)) NULL;
           EvLogError "Err, couldn't allocate Buffer for VMCS region" []])
         (Ret (false, VCpu) (after_alloc (after_prologue w)))) \/
  (next_alloc w <> NULL /\ readmsr hw IA32_VMX_BASIC = None /\
   VmxAllocateVmcsRegion hw VCpu w =
   mkRun (prologue_trace w ++ vmcs_trace_allocated hw w ++
          [EvReadMsr IA32_VMX_BASIC None])
         (Raise (after_zeroed_alloc (region_alloc_size (VMCS_SIZE hw)) (after_prologue w)))) \/
  (exists cap,
     next_alloc w <> NULL /\ readmsr hw IA32_VMX_BASIC = Some cap /\
     VmxAllocateVmcsRegion hw VCpu w =
     mkRun (prologue_trace w ++ vmcs_trace_allocated hw w ++
            [EvReadMsr IA32_VMX_BASIC (Some cap);
             EvLogDebug "Revision Identifier (IA32_VMX_BASIC - MSR 0x480) : 0x%x"
                        [VmcsRevisionId cap]])
           (Ret (true,
                 set_VmcsRegionVirtualAddress (next_alloc w)
                   (set_VmcsRegionPhysicalAddress
                      (align_page (VirtualAddressToPhysicalAddress hw (next_alloc w))) VCpu))
                (after_stamp (region_alloc_size (VMCS_SIZE hw)) cap (after_prologue w)))).
Proof.
  destruct (Z.eq_dec (next_alloc w) NULL) as [Hp|Hp].
  { left. split; [assumption|]. apply vmcs_alloc_failed; assumption. }
  destruct (readmsr hw IA32_VMX_BASIC) as [cap|] eqn:Hmsr.
  - right; right. exists cap. repeat (split; [assumption || reflexivity|]).
    apply vmcs_succeeded; assumption.
  - right; left. split; [assumption|]. split; [reflexivity|].
    apply vmcs_msr_faulted; assumption.
Qed.

(** X5: neither region allocator guards its read of IA32_VMX_BASIC: the
    call raises instead of returning exactly when the allocation
    succeeded and that read faults.  The buffer has then been taken from
    the memory service, no vmxon has been executed and no diagnostic has
    been logged. *)
Theorem capability_read_fault_escapes VCpu w :
  ((exists w', outcome (VmxAllocateVmxonRegion hw VCpu w) = Raise w') <->
     next_alloc w <> NULL /\ readmsr hw IA32_VMX_BASIC = None) /\
  ((exists w', outcome (VmxAllocateVmcsRegion hw VCpu w) = Raise w') <->
     next_alloc w <> NULL /\ readmsr hw IA32_VMX_BASIC = None) /\
  (next_alloc w <> NULL -> readmsr hw IA32_VMX_BASIC = None ->
     allocs (final_world (VmxAllocateVmxonRegion hw VCpu w)) = tl (allocs w) /\
     vmxon_calls (trace (VmxAllocateVmxonRegion hw VCpu w)) = [] /\
     logged_errors (trace (VmxAllocateVmxonRegion hw VCpu w)) = [] /\
     allocs (final_world (VmxAllocateVmcsRegion hw VCpu w)) = tl (allocs w) /\
     logged_errors (trace (VmxAllocateVmcsRegion hw VCpu w)) = []).
Proof.
  split; [|split].
  - destruct (vmxon_paths VCpu w)
      as [(Hp & Hr)|[(Hp & Hm & Hr)|[(cap & Hp & Hm & Hst & Hr)|(cap & Hp & Hm & Hst & Hr)]]];
      rewrite Hr; cbn [outcome]; split;
      try (intros [w' Hw]; discriminate);
      try (intros [Hp' Hm']; congruence).
    + intros _. split; assumption.
    + intros _. eexists; reflexivity.
  - destruct (vmcs_paths VCpu w)
      as [(Hp & Hr)|[(Hp & Hm & Hr)|(cap & Hp & Hm & Hr)]];
      rewrite Hr; cbn [outcome]; split;
      try (intros [w' Hw]; discriminate);
      try (intros [Hp' Hm']; congruence).
    + intros _. split; assumption.
    + intros _. eexists; reflexivity.
  - intros Hp Hm.
    rewrite vmxon_msr_faulted, vmcs_msr_faulted by assumption.
    unfold final_world. cbn [outcome trace].
    rewrite vmxon_calls_prologue, !logged_errors_prologue.
    cbn. rewrite allocs_after_prologue. auto.
Qed.

(** X6: VmxAllocateVmcsRegion never executes vmxon.  It returns false
    exactly when the allocation fails, with the context as it was and its
    diagnostic logged; it returns true exactly when the allocation
    succeeds and IA32_VMX_BASIC is readable, and then logs no error. *)
Theorem VmxAllocateVmcsRegion_result VCpu w :
  vmxon_calls (trace (VmxAllocateVmcsRegion hw VCpu w)) = [] /\
  (returned (VmxAllocateVmcsRegion hw VCpu w) = Some false <-> next_alloc w = NULL) /\
  (returned (VmxAllocateVmcsRegion hw VCpu w) = Some true <->
     next_alloc w <> NULL /\ exists cap, readmsr hw IA32_VMX_BASIC = Some cap) /\
  (next_alloc w = NULL ->
     (exists w', outcome (VmxAllocateVmcsRegion hw VCpu w) = Ret (false, VCpu) w') /\
     logged_errors (trace (VmxAllocateVmcsRegion hw VCpu w))
       = [("Err, couldn't allocate Buffer for VMCS region", [])]) /\
  (returned (VmxAllocateVmcsRegion hw VCpu w) = Some true ->
     logged_errors (trace (VmxAllocateVmcsRegion hw VCpu w)) = []).
Proof.
  destruct (vmcs_paths VCpu w)
    as [(Hp & Hr)|[(Hp & Hm & Hr)|(cap & Hp & Hm & Hr)]];
    rewrite Hr; unfold returned; cbn [outcome trace];
    rewrite vmxon_calls_prologue, logged_errors_prologue.
  - cbn. split; [reflexivity|]. split; [tauto|].
    split; [split; [discriminate|tauto]|].
    split; [|discriminate]. intros _. split; [eexists; reflexivity|reflexivity].
  - cbn. split; [reflexivity|]. split; [split; [discriminate|contradiction]|].
    split; [split; [discriminate|]|].
    + intros (_ & cap & Hc). congruence.
    + split; [contradiction|discriminate].
  - cbn. split; [reflexivity|]. split; [split; [discriminate|contradiction]|].
    split; [split; eauto|].
    split; [contradiction|reflexivity].
Qed.

(** X7: VmxAllocateVmxonRegion executes vmxon at most once, and does so
    exactly when the allocation succeeded and IA32_VMX_BASIC was readable;
    the operand is the rounded translation of the buffer's address and the
    status is a byte.  After a successful call the one vmxon executed had
    the physical address recorded in the context as operand and answered
    0. *)
Theorem vmxon_executed_at_most_once VCpu w :
  (vmxon_calls (trace (VmxAllocateVmxonRegion hw VCpu w)) = [] \/
   exists st,
     vmxon_calls (trace (VmxAllocateVmxonRegion hw VCpu w))
       = [(align_page (VirtualAddressToPhysicalAddress hw (next_alloc w)), st)] /\
     0 <= st < 256) /\
  (vmxon_calls (trace (VmxAllocateVmxonRegion hw VCpu w)) <> [] <->
     next_alloc w <> NULL /\ exists cap, readmsr hw IA32_VMX_BASIC = Some cap) /\
  (forall VCpu' w',
     outcome (VmxAllocateVmxonRegion hw VCpu w) = Ret (true, VCpu') w' ->
     vmxon_calls (trace (VmxAllocateVmxonRegion hw VCpu w))
       = [(VmxonRegionPhysicalAddress VCpu', 0)]).
Proof.
  assert (Hbyte : forall x, 0 <= wrap8 x < 256).
  { intros x. unfold wrap8. apply Z.mod_pos_bound. lia. }
  destruct (vmxon_paths VCpu w)
    as [(Hp & Hr)|[(Hp & Hm & Hr)|[(cap & Hp & Hm & Hst & Hr)|(cap & Hp & Hm & Hst & Hr)]]];
    rewrite Hr; cbn [outcome trace]; rewrite vmxon_calls_prologue.
  - cbn. split; [left; reflexivity|]. split; [|discriminate].
    split; [contradiction|tauto].
  - cbn. split; [left; reflexivity|]. split; [|discriminate].
    split; [contradiction|]. intros (_ & cap & Hc). congruence.
  - cbn. split; [right; eexists; split; [reflexivity|apply Hbyte]|].
    split; [|discriminate]. split; [eauto|discriminate].
  - cbn. split; [right; eexists; split; [reflexivity|apply Hbyte]|].
    split; [split; [eauto|discriminate]|].
    intros VCpu' w' H. injection H as <- _. cbn. rewrite Hst. reflexivity.
Qed.

(** X8: both region allocators call KeRaiseIrqlToDpcLevel exactly when
    the IRQL on entry is above DISPATCH_LEVEL, once, as the first thing
    they do, right before the allocation request; the pool allocators and
    the MSR prober never call it. *)
Theorem irql_raised_only_above_dispatch_level VCpu w :
  (exists tr,
     trace (VmxAllocateVmxonRegion hw VCpu w)
       = (if DISPATCH_LEVEL <? irql w then [EvRaiseIrql (irql w)] else []) ++
         EvAllocContiguous (region_alloc_size (VMXON_SIZE hw)) (next_alloc w) :: tr /\
     irql_raises tr = []) /\
  (exists tr,
     trace (VmxAllocateVmcsRegion hw VCpu w)
       = (if DISPATCH_LEVEL <? irql w then [EvRaiseIrql (irql w)] else []) ++
         EvAllocContiguous (region_alloc_size (VMCS_SIZE hw)) (next_alloc w) :: tr /\
     irql_raises tr = []) /\
  irql_raises (trace (VmxAllocateVmmStack hw VCpu w)) = [] /\
  irql_raises (trace (VmxAllocateMsrBitmap hw VCpu w)) = [] /\
  irql_raises (trace (VmxAllocateIoBitmaps hw VCpu w)) = [] /\
  irql_raises (trace (VmxAllocateInvalidMsrBimap hw w)) = [].
Proof.
  split; [|split; [|split; [|split; [|split]]]].
  - destruct (vmxon_paths VCpu w)
      as [(Hp & Hr)|[(Hp & Hm & Hr)|[(cap & Hp & Hm & Hst & Hr)|(cap & Hp & Hm & Hst & Hr)]]];
      rewrite Hr; cbn [trace]; fold (prologue_trace w);
      try rewrite Hp; eexists; split; reflexivity.
  - destruct (vmcs_paths VCpu w)
      as [(Hp & Hr)|[(Hp & Hm & Hr)|(cap & Hp & Hm & Hr)]];
      rewrite Hr; cbn [trace]; fold (prologue_trace w);
      try rewrite Hp; eexists; split; reflexivity.
  - destruct (Z.eq_dec (next_alloc w) NULL) as [Hp|Hp];
      [rewrite vmm_stack_alloc_failed|rewrite vmm_stack_succeeded]; auto.
  - destruct (Z.eq_dec (next_alloc w) NULL) as [Hp|Hp];
      [rewrite msr_bitmap_alloc_failed|rewrite msr_bitmap_succeeded]; auto.
  - destruct (Z.eq_dec (next_alloc w) NULL) as [Hp|Hp];
      [rewrite io_bitmaps_A_failed; auto|].
    destruct (Z.eq_dec (second_alloc w) NULL) as [Hq|Hq];
      [rewrite io_bitmaps_B_failed|rewrite io_bitmaps_succeeded]; auto.
  - destruct (Z.eq_dec (next_alloc w) NULL) as [Hp|Hp];
      [rewrite prober_alloc_failed; auto|].
    rewrite prober_succeeded by assumption. cbn [trace irql_raises].
    induction (seqZ 0 4096) as [|i l IH]; [reflexivity|exact IH].
Qed.
End Region_allocators.

Section Region_memory.
Context {R : Type}.
Variable hw : Platform.
Implicit Type VCpu : VIRTUAL_MACHINE_STATE R.
Implicit Type w : World.

Lemma region_alloc_size_eq size :
  0 <= size -> 2 * size + ALIGNMENT_PAGE_SIZE < 2 ^ 64 ->
  region_alloc_size size = 2 * size + ALIGNMENT_PAGE_SIZE.
Proof.
  unfold region_alloc_size, ALIGNMENT_PAGE_SIZE. intros H0 H1.
  rewrite (wrap64_small (2 * size)) by lia. apply wrap64_small. lia.
Qed.

Lemma load8_after_stamp_out size cap w x :
  x < align_page (next_alloc w) \/ align_page (next_alloc w) + 8 <= x ->
  load8 (mem (after_stamp size cap w)) x = load8 (mem (after_zeroed_alloc size w)) x.
Proof.
  intros Hx. unfold after_stamp. cbn [mem set_mem]. unfold store64.
  apply load8_store_le_outside. cbn. lia.
Qed.

(** What a zeroed, stamped buffer of [2 * size + ALIGNMENT_PAGE_SIZE]
    bytes looks like: untouched outside, zero inside apart from the 8
    bytes of the stamp, which lie inside. *)
Lemma stamped_region_memory size cap w :
  4 <= size -> 0 < next_alloc w ->
  next_alloc w + (2 * size + ALIGNMENT_PAGE_SIZE) <= 2 ^ 64 ->
  same_outside (mem w) (mem (after_stamp (region_alloc_size size) cap w))
               (next_alloc w) (2 * size + ALIGNMENT_PAGE_SIZE) /\
  (forall x,
     next_alloc w <= x < next_alloc w + (2 * size + ALIGNMENT_PAGE_SIZE) ->
     x < align_page (next_alloc w) \/ align_page (next_alloc w) + 8 <= x ->
     load8 (mem (after_stamp (region_alloc_size size) cap w)) x = 0) /\
  next_alloc w <= align_page (next_alloc w) /\
  align_page (next_alloc w) + 8 <= next_alloc w + (2 * size + ALIGNMENT_PAGE_SIZE).
Proof.
  intros Hs Hp Hfit.
  assert (Hsz : region_alloc_size size = 2 * size + ALIGNMENT_PAGE_SIZE).
  { apply region_alloc_size_eq; unfold ALIGNMENT_PAGE_SIZE in *; lia. }
  assert (Hlo : next_alloc w <= align_page (next_alloc w)).
  { apply align_page_least; unfold ALIGNMENT_PAGE_SIZE in *; lia. }
  assert (Hhi : align_page (next_alloc w) < next_alloc w + ALIGNMENT_PAGE_SIZE).
  { apply align_page_lt; unfold ALIGNMENT_PAGE_SIZE in *; lia. }
  rewrite Hsz. unfold ALIGNMENT_PAGE_SIZE in *.
  split; [|split; [|split]]; try lia.
  - intros x Hx. rewrite load8_after_stamp_out by lia.
    apply load8_after_zeroed_alloc_out. exact Hx.
  - intros x Hx Hout. rewrite load8_after_stamp_out by exact Hout.
    apply load8_after_zeroed_alloc_in. exact Hx.
Qed.

Lemma zeroed_region_memory size w :
  0 <= size -> 2 * size + ALIGNMENT_PAGE_SIZE < 2 ^ 64 ->
  same_outside (mem w) (mem (after_zeroed_alloc (region_alloc_size size) w))
               (next_alloc w) (2 * size + ALIGNMENT_PAGE_SIZE) /\
  zeroed (mem (after_zeroed_alloc (region_alloc_size size) w))
         (next_alloc w) (2 * size + ALIGNMENT_PAGE_SIZE).
Proof.
  intros H0 H1. rewrite region_alloc_size_eq by assumption.
  split; [apply same_outside_after_zeroed_alloc|apply zeroed_after_zeroed_alloc].
Qed.

Lemma stamp_below_2_31 size cap w :
  0 <= load64 (mem (after_stamp size cap w)) (align_page (next_alloc w)) < 2 ^ 31.
Proof. rewrite load64_after_stamp. apply Z.mod_pos_bound. lia. Qed.

(** X9: for a buffer that the memory service hands out inside the 64-bit
    address space and a region size of at least 4 bytes,
    VmxAllocateVmxonRegion writes only inside the buffer of
    2 x VMXON_SIZE + page-size bytes, on every path: every byte outside it
    is as before, and inside it every byte is zero except the 8 bytes at
    the aligned address, which lie inside the buffer.  Whenever the call
    returns, the 64-bit word there is below 2^31: bit 31 and the upper four
    bytes are clear whatever the capability register holds. *)
Theorem VmxAllocateVmxonRegion_memory VCpu w :
  4 <= VMXON_SIZE hw -> 0 < next_alloc w ->
  next_alloc w + (2 * VMXON_SIZE hw + ALIGNMENT_PAGE_SIZE) <= 2 ^ 64 ->
  same_outside (mem w) (mem (final_world (VmxAllocateVmxonRegion hw VCpu w)))
               (next_alloc w) (2 * VMXON_SIZE hw + ALIGNMENT_PAGE_SIZE) /\
  (forall x,
     next_alloc w <= x < next_alloc w + (2 * VMXON_SIZE hw + ALIGNMENT_PAGE_SIZE) ->
     x < align_page (next_alloc w) \/ align_page (next_alloc w) + 8 <= x ->
     load8 (mem (final_world (VmxAllocateVmxonRegion hw VCpu w))) x = 0) /\
  next_alloc w <= align_page (next_alloc w) /\
  align_page (next_alloc w) + 8
    <= next_alloc w + (2 * VMXON_SIZE hw + ALIGNMENT_PAGE_SIZE) /\
  (forall b VCpu' w',
     outcome (VmxAllocateVmxonRegion hw VCpu w) = Ret (b, VCpu') w' ->
     0 <= load64 (mem w') (align_page (next_alloc w)) < 2 ^ 31).
Proof.
  intros Hs Hp Hfit.
  assert (Hfit' : next_alloc (after_prologue w) + (2 * VMXON_SIZE hw + ALIGNMENT_PAGE_SIZE)
                  <= 2 ^ 64) by (rewrite next_alloc_after_prologue; exact Hfit).
  assert (Hp' : 0 < next_alloc (after_prologue w))
    by (rewrite next_alloc_after_prologue; exact Hp).
  destruct (vmxon_paths hw VCpu w)
    as [(Hn & Hr)|[(Hn & Hm & Hr)|[(cap & Hn & Hm & Hst & Hr)|(cap & Hn & Hm & Hst & Hr)]]];
    rewrite Hr; unfold final_world; cbn [outcome].
  - unfold NULL in Hn. lia.
  - destruct (zeroed_region_memory (VMXON_SIZE hw) (after_prologue w)) as (Hout & Hin);
      [lia|unfold ALIGNMENT_PAGE_SIZE in *; lia|].
    rewrite next_alloc_after_prologue, mem_after_prologue in *.
    split; [exact Hout|]. split; [intros x Hx _; apply Hin, Hx|].
    split; [apply align_page_least; unfold ALIGNMENT_PAGE_SIZE in *; lia|].
    split; [|discriminate].
    pose proof (align_page_lt (next_alloc w)). unfold ALIGNMENT_PAGE_SIZE in *. lia.
  - destruct (stamped_region_memory (VMXON_SIZE hw) cap (after_prologue w) Hs Hp' Hfit')
      as (Hout & Hin & Hlo & Hhi).
    pose proof (stamp_below_2_31 (region_alloc_size (VMXON_SIZE hw)) cap (after_prologue w))
      as Hst31.
    rewrite next_alloc_after_prologue, ?mem_after_prologue in *.
    repeat (split; [assumption|]).
    intros b VCpu' w' H. injection H as _ _ <-. exact Hst31.
  - destruct (stamped_region_memory (VMXON_SIZE hw) cap (after_prologue w) Hs Hp' Hfit')
      as (Hout & Hin & Hlo & Hhi).
    pose proof (stamp_below_2_31 (region_alloc_size (VMXON_SIZE hw)) cap (after_prologue w))
      as Hst31.
    rewrite next_alloc_after_prologue, ?mem_after_prologue in *.
    repeat (split; [assumption|]).
    intros b VCpu' w' H. injection H as _ _ <-. exact Hst31.
Qed.

(** X10: the same for VmxAllocateVmcsRegion and its buffer of
    2 x VMCS_SIZE + page-size bytes. *)
Theorem VmxAllocateVmcsRegion_memory VCpu w :
  4 <= VMCS_SIZE hw -> 0 < next_alloc w ->
  next_alloc w + (2 * VMCS_SIZE hw + ALIGNMENT_PAGE_SIZE) <= 2 ^ 64 ->
  same_outside (mem w) (mem (final_world (VmxAllocateVmcsRegion hw VCpu w)))
               (next_alloc w) (2 * VMCS_SIZE hw + ALIGNMENT_PAGE_SIZE) /\
  (forall x,
     next_alloc w <= x < next_alloc w + (2 * VMCS_SIZE hw + ALIGNMENT_PAGE_SIZE) ->
     x < align_page (next_alloc w) \/ align_page (next_alloc w) + 8 <= x ->
     load8 (mem (final_world (VmxAllocateVmcsRegion hw VCpu w))) x = 0) /\
  next_alloc w <= align_page (next_alloc w) /\
  align_page (next_alloc w) + 8
    <= next_alloc w + (2 * VMCS_SIZE hw + ALIGNMENT_PAGE_SIZE) /\
  (forall b VCpu' w',
     outcome (VmxAllocateVmcsRegion hw VCpu w) = Ret (b, VCpu') w' ->
     0 <= load64 (mem w') (align_page (next_alloc w)) < 2 ^ 31).
Proof.
  intros Hs Hp Hfit.
  assert (Hfit' : next_alloc (after_prologue w) + (2 * VMCS_SIZE hw + ALIGNMENT_PAGE_SIZE)
                  <= 2 ^ 64) by (rewrite next_alloc_after_prologue; exact Hfit).
  assert (Hp' : 0 < next_alloc (after_prologue w))
    by (rewrite next_alloc_after_prologue; exact Hp).
  destruct (vmcs_paths hw VCpu w)
    as [(Hn & Hr)|[(Hn & Hm & Hr)|(cap & Hn & Hm & Hr)]];
    rewrite Hr; unfold final_world; cbn [outcome].
  - unfold NULL in Hn. lia.
  - destruct (zeroed_region_memory (VMCS_SIZE hw) (after_prologue w)) as (Hout & Hin);
      [lia|unfold ALIGNMENT_PAGE_SIZE in *; lia|].
    rewrite next_alloc_after_prologue, mem_after_prologue in *.
    split; [exact Hout|]. split; [intros x Hx _; apply Hin, Hx|].
    split; [apply align_page_least; unfold ALIGNMENT_PAGE_SIZE in *; lia|].
    split; [|discriminate].
    pose proof (align_page_lt (next_alloc w)). unfold ALIGNMENT_PAGE_SIZE in *. lia.
  - destruct (stamped_region_memory (VMCS_SIZE hw) cap (after_prologue w) Hs Hp' Hfit')
      as (Hout & Hin & Hlo & Hhi).
    pose proof (stamp_below_2_31 (region_alloc_size (VMCS_SIZE hw)) cap (after_prologue w))
      as Hst31.
    rewrite next_alloc_after_prologue, ?mem_after_prologue in *.
    repeat (split; [assumption|]).
    intros b VCpu' w' H. injection H as _ _ <-. exact Hst31.
Qed.
End Region_memory.

Section Context_frame.
Context {R : Type}.
Variable hw : Platform.
Implicit Type VCpu : VIRTUAL_MACHINE_STATE R.
Implicit Type w : World.

(** X11: each allocator writes only its own fields of the context, on
    every path on which it returns: putting the entry values of those
    fields back into the context it returns gives the entry context, so
    every other field, the ones declared outside this file included, is
    untouched. *)
Theorem allocators_write_only_their_fields VCpu w :
  (forall b VCpu' w',
     outcome (VmxAllocateVmxonRegion hw VCpu w) = Ret (b, VCpu') w' ->
     set_VmxonRegionVirtualAddress (VmxonRegionVirtualAddress VCpu)
       (set_VmxonRegionPhysicalAddress (VmxonRegionPhysicalAddress VCpu) VCpu') = VCpu) /\
  (forall b VCpu' w',
     outcome (VmxAllocateVmcsRegion hw VCpu w) = Ret (b, VCpu') w' ->
     set_VmcsRegionVirtualAddress (VmcsRegionVirtualAddress VCpu)
       (set_VmcsRegionPhysicalAddress (VmcsRegionPhysicalAddress VCpu) VCpu') = VCpu) /\
  (forall b VCpu' w',
     outcome (VmxAllocateVmmStack hw VCpu w) = Ret (b, VCpu') w' ->
     set_VmmStack (VmmStack VCpu) VCpu' = VCpu) /\
  (forall b VCpu' w',
     outcome (VmxAllocateMsrBitmap hw VCpu w) = Ret (b, VCpu') w' ->
     set_MsrBitmapPhysicalAddress (MsrBitmapPhysicalAddress VCpu)
       (set_MsrBitmapVirtualAddress (MsrBitmapVirtualAddress VCpu) VCpu') = VCpu) /\
  (forall b VCpu' w',
     outcome (VmxAllocateIoBitmaps hw VCpu w) = Ret (b, VCpu') w' ->
     set_IoBitmapPhysicalAddressB (IoBitmapPhysicalAddressB VCpu)
       (set_IoBitmapVirtualAddressB (IoBitmapVirtualAddressB VCpu)
          (set_IoBitmapPhysicalAddressA (IoBitmapPhysicalAddressA VCpu)
             (set_IoBitmapVirtualAddressA (IoBitmapVirtualAddressA VCpu) VCpu'))) = VCpu).
Proof.
  split; [|split; [|split; [|split]]]; intros b VCpu' w' H.
  - destruct (vmxon_paths hw VCpu w)
      as [(Hn & Hr)|[(Hn & Hm & Hr)|[(cap & Hn & Hm & Hst & Hr)|(cap & Hn & Hm & Hst & Hr)]]];
      rewrite Hr in H; cbn [outcome] in H; try discriminate;
      injection H as _ <- _; destruct VCpu; reflexivity.
  - destruct (vmcs_paths hw VCpu w)
      as [(Hn & Hr)|[(Hn & Hm & Hr)|(cap & Hn & Hm & Hr)]];
      rewrite Hr in H; cbn [outcome] in H; try discriminate;
      injection H as _ <- _; destruct VCpu; reflexivity.
  - destruct (Z.eq_dec (next_alloc w) NULL) as [Hp|Hp];
      [rewrite vmm_stack_alloc_failed in H by assumption
      |rewrite vmm_stack_succeeded in H by assumption];
      cbn [outcome] in H; injection H as _ <- _; destruct VCpu; reflexivity.
  - destruct (Z.eq_dec (next_alloc w) NULL) as [Hp|Hp];
      [rewrite msr_bitmap_alloc_failed in H by assumption
      |rewrite msr_bitmap_succeeded in H by assumption];
      cbn [outcome] in H; injection H as _ <- _; destruct VCpu; reflexivity.
  - destruct (Z.eq_dec (next_alloc w) NULL) as [Hp|Hp].
    { rewrite io_bitmaps_A_failed in H by assumption.
      cbn [outcome] in H. injection H as _ <- _. destruct VCpu; reflexivity. }
    destruct (Z.eq_dec (second_alloc w) NULL) as [Hq|Hq];
      [rewrite io_bitmaps_B_failed in H by assumption
      |rewrite io_bitmaps_succeeded in H by assumption];
      cbn [outcome] in H; injection H as _ <- _; destruct VCpu; reflexivity.
Qed.

(** X12: when VmxAllocateVmxonRegion succeeds and VmxAllocateVmcsRegion,
    run next on the context and world it left, succeeds as well, and the
    two buffers handed out lie inside the address space and do not
    overlap: the VMCS allocator received the second answer of the memory
    service, the context holds the addresses of both regions, and both
    regions carry the same revision identifier, the low 31 bits of the
    capability register: zeroing and stamping the VMCS buffer left the
    stamp of the VMXON region intact. *)
Theorem vmxon_then_vmcs VCpu w VCpu1 w1 VCpu2 w2 :
  outcome (VmxAllocateVmxonRegion hw VCpu w) = Ret (true, VCpu1) w1 ->
  outcome (VmxAllocateVmcsRegion hw VCpu1 w1) = Ret (true, VCpu2) w2 ->
  4 <= VMXON_SIZE hw -> 4 <= VMCS_SIZE hw ->
  0 < next_alloc w ->
  next_alloc w + (2 * VMXON_SIZE hw + ALIGNMENT_PAGE_SIZE) <= 2 ^ 64 ->
  0 < second_alloc w ->
  second_alloc w + (2 * VMCS_SIZE hw + ALIGNMENT_PAGE_SIZE) <= 2 ^ 64 ->
  (next_alloc w + (2 * VMXON_SIZE hw + ALIGNMENT_PAGE_SIZE) <= second_alloc w \/
   second_alloc w + (2 * VMCS_SIZE hw + ALIGNMENT_PAGE_SIZE) <= next_alloc w) ->
  next_alloc w1 = second_alloc w /\
  VmxonRegionVirtualAddress VCpu2 = next_alloc w /\
  VmxonRegionPhysicalAddress VCpu2
    = align_page (VirtualAddressToPhysicalAddress hw (next_alloc w)) /\
  VmcsRegionVirtualAddress VCpu2 = second_alloc w /\
  VmcsRegionPhysicalAddress VCpu2
    = align_page (VirtualAddressToPhysicalAddress hw (second_alloc w)) /\
  exists cap,
    readmsr hw IA32_VMX_BASIC = Some cap /\
    load64 (mem w2) (align_page (next_alloc w)) = cap mod 2 ^ 31 /\
    load64 (mem w2) (align_page (second_alloc w)) = cap mod 2 ^ 31.
Proof.
  intros H1 H2 Hs1 Hs2 Hp1 Hfit1 Hp2 Hfit2 Hdisj.
  destruct (vmxon_paths hw VCpu w)
    as [(Hn & Hr)|[(Hn & Hm & Hr)|[(cap & Hn & Hm & Hst & Hr)|(cap & Hn & Hm & Hst & Hr)]]];
    rewrite Hr in H1; cbn [outcome] in H1; try discriminate.
  injection H1 as <- <-.
  assert (Hnext : next_alloc (after_stamp (region_alloc_size (VMXON_SIZE hw)) cap
                                (after_prologue w)) = second_alloc w).
  { unfold second_alloc, next_alloc. cbn. rewrite allocs_after_prologue. reflexivity. }
  destruct (vmcs_paths hw
              (set_VmxonRegionVirtualAddress (next_alloc w)
                 (set_VmxonRegionPhysicalAddress
                    (align_page (VirtualAddressToPhysicalAddress hw (next_alloc w))) VCpu))
              (after_stamp (region_alloc_size (VMXON_SIZE hw)) cap (after_prologue w)))
    as [(Hn2 & Hr2)|[(Hn2 & Hm2 & Hr2)|(cap2 & Hn2 & Hm2 & Hr2)]];
    rewrite Hr2 in H2; cbn [outcome] in H2; try discriminate.
  injection H2 as <- <-.
  assert (cap2 = cap) by congruence. subst cap2.
  set (w1 := after_stamp (region_alloc_size (VMXON_SIZE hw)) cap (after_prologue w)) in *.
  split; [exact Hnext|]. rewrite Hnext.
  split; [reflexivity|]. split; [reflexivity|].
  split; [reflexivity|]. split; [reflexivity|].
  exists cap. split; [exact Hm|].
  assert (Hn1 : next_alloc (after_prologue w1) = second_alloc w)
    by (rewrite next_alloc_after_prologue; exact Hnext).
  split.
  - destruct (stamped_region_memory (VMXON_SIZE hw) cap (after_prologue w))
      as (_ & _ & Hlo & Hhi);
      try (rewrite next_alloc_after_prologue); try assumption.
    destruct (stamped_region_memory (VMCS_SIZE hw) cap (after_prologue w1))
      as (Hout & _); try (rewrite Hn1); try assumption.
    rewrite next_alloc_after_prologue in Hlo, Hhi.
    rewrite Hn1, mem_after_prologue in Hout.
    unfold load64.
    rewrite (load_le_ext _ (mem w1)).
    + fold (load64 (mem w1) (align_page (next_alloc w))).
      unfold w1. rewrite <- (next_alloc_after_prologue w). apply load64_after_stamp.
    + intros x Hx. apply Hout. cbn in Hx. lia.
  - rewrite <- Hn1. apply load64_after_stamp.
Qed.
End Context_frame.

Section Rounding.
Context {R : Type}.
Variable hw : Platform.
Implicit Type VCpu : VIRTUAL_MACHINE_STATE R.
Implicit Type w : World.

Lemma align_page_range a : 0 <= align_page a < 2 ^ 64.
Proof.
  unfold align_page.
  pose proof (Z.mod_pos_bound (a + ALIGNMENT_PAGE_SIZE - 1) (2 ^ 64) ltac:(lia)) as Hb.
  fold (wrap64 (a + ALIGNMENT_PAGE_SIZE - 1)) in Hb.
  rewrite land_page_mask by exact Hb.
  pose proof (Z.div_mod (wrap64 (a + ALIGNMENT_PAGE_SIZE - 1)) 4096 ltac:(lia)).
  pose proof (Z.mod_pos_bound (wrap64 (a + ALIGNMENT_PAGE_SIZE - 1)) 4096 ltac:(lia)).
  lia.
Qed.

Lemma align_page_aligned a :
  0 <= a < 2 ^ 64 -> a mod 4096 = 0 -> align_page a = a.
Proof.
  intros Ha Hm.
  pose proof (Z.div_mod a 4096 ltac:(lia)) as Hd. rewrite Hm in Hd.
  assert (Hk : a / 4096 < 2 ^ 52).
  { apply Z.div_lt_upper_bound; [lia|]. change (4096 * 2 ^ 52) with (2 ^ 64). lia. }
  rewrite align_page_eq by (unfold ALIGNMENT_PAGE_SIZE; lia).
  assert (Hq : (a + 4095) / 4096 = a / 4096).
  { symmetry. apply (Z.div_unique (a + 4095) 4096 (a / 4096) 4095); lia. }
  rewrite Hq. lia.
Qed.

(** X13: the rounding leaves a 64-bit address that is already a multiple
    of 4096 as it is, and rounding twice is rounding once; so when the
    translation of the buffer's address is page-aligned, the physical
    address a successful VmxAllocateVmxonRegion or VmxAllocateVmcsRegion
    records is that translation itself. *)
Theorem align_page_keeps_aligned_addresses VCpu w :
  (forall a, 0 <= a < 2 ^ 64 -> a mod 4096 = 0 -> align_page a = a) /\
  (forall a, align_page (align_page a) = align_page a) /\
  (forall VCpu' w',
     outcome (VmxAllocateVmxonRegion hw VCpu w) = Ret (true, VCpu') w' ->
     0 <= VirtualAddressToPhysicalAddress hw (next_alloc w) < 2 ^ 64 ->
     VirtualAddressToPhysicalAddress hw (next_alloc w) mod 4096 = 0 ->
     VmxonRegionPhysicalAddress VCpu' = VirtualAddressToPhysicalAddress hw (next_alloc w)) /\
  (forall VCpu' w',
     outcome (VmxAllocateVmcsRegion hw VCpu w) = Ret (true, VCpu') w' ->
     0 <= VirtualAddressToPhysicalAddress hw (next_alloc w) < 2 ^ 64 ->
     VirtualAddressToPhysicalAddress hw (next_alloc w) mod 4096 = 0 ->
     VmcsRegionPhysicalAddress VCpu' = VirtualAddressToPhysicalAddress hw (next_alloc w)).
Proof.
  split; [exact align_page_aligned|]. split; [|split].
  - intros a. apply align_page_aligned; [apply align_page_range|apply align_page_multiple].
  - intros VCpu' w' H Hr Hm.
    destruct (vmxon_paths hw VCpu w)
      as [(Hn & Hr')|[(Hn & Hm' & Hr')|[(cap & Hn & Hm' & Hst & Hr')|(cap & Hn & Hm' & Hst & Hr')]]];
      rewrite Hr' in H; cbn [outcome] in H; try discriminate.
    injection H as <- _. cbn. apply align_page_aligned; assumption.
  - intros VCpu' w' H Hr Hm.
    destruct (vmcs_paths hw VCpu w)
      as [(Hn & Hr')|[(Hn & Hm' & Hr')|(cap & Hn & Hm' & Hr')]];
      rewrite Hr' in H; cbn [outcome] in H; try discriminate.
    injection H as <- _. cbn. apply align_page_aligned; assumption.
Qed.

(** X14: when the virtual and the physical start of a buffer have the
    same offset within their page, as under page-granular translation,
    the two roundings advance by the same number of bytes, less than a
    page: the aligned virtual and the aligned physical address designate
    the same byte of the buffer. *)
Theorem aligned_addresses_share_offset va pa :
  0 <= va -> va + ALIGNMENT_PAGE_SIZE <= 2 ^ 64 ->
  0 <= pa -> pa + ALIGNMENT_PAGE_SIZE <= 2 ^ 64 ->
  va mod 4096 = pa mod 4096 ->
  align_page va - va = align_page pa - pa /\
  0 <= align_page va - va < 4096.
Proof.
  intros Hva Hva' Hpa Hpa' Hoff.
  rewrite !align_page_eq by assumption.
  assert (Hm : (va + 4095) mod 4096 = (pa + 4095) mod 4096).
  { rewrite (Z.add_mod va), (Z.add_mod pa), Hoff by lia. reflexivity. }
  pose proof (Z.div_mod (va + 4095) 4096 ltac:(lia)).
  pose proof (Z.div_mod (pa + 4095) 4096 ltac:(lia)).
  pose proof (Z.mod_pos_bound (va + 4095) 4096 ltac:(lia)).
  lia.
Qed.
End Rounding.

Section Prober.
Variable hw : Platform.
Implicit Type w : World.

Lemma load8_probed_world_out w x :
  x < next_alloc w \/ next_alloc w + 512 <= x ->
  load8 (mem (probed_world hw w)) x = load8 (mem w) x.
Proof.
  intros Hx. unfold probed_world. cbn [mem set_mem].
  rewrite load8_probed_mem_other.
  - apply load8_zero_bytes_out. exact Hx.
  - change (Z.of_nat (Z.to_nat 0x1000)) with 0x1000. intros j Hj.
    assert (0 <= j / 8) by (apply Z.div_pos; lia).
    assert (j / 8 < 512) by (apply Z.div_lt_upper_bound; lia). lia.
Qed.

Lemma allocations_probe_events (l : list Z) : allocations (probe_event hw <$> l) = [].
Proof. induction l as [|i l IH]; [reflexivity|exact IH]. Qed.

Lemma msr_reads_probe_indices l i v :
  In (i, v) (msr_reads (probe_event hw <$> l)) -> In i l.
Proof.
  induction l as [|j l IH]; cbn; [tauto|].
  intros [H|H]; [left; congruence|right; auto].
Qed.

(** X15: VmxAllocateInvalidMsrBimap asks the pool once, for 512 bytes,
    and writes only inside them: every byte outside the bitmap is as
    before.  It reads no MSR whose index is outside 0..4095, and when the
    allocation fails it reads no MSR at all and writes no memory. *)
Theorem VmxAllocateInvalidMsrBimap_effects w :
  allocations (trace (VmxAllocateInvalidMsrBimap hw w)) = [(512, next_alloc w)] /\
  allocs (final_world (VmxAllocateInvalidMsrBimap hw w)) = tl (allocs w) /\
  same_outside (mem w) (mem (final_world (VmxAllocateInvalidMsrBimap hw w)))
               (next_alloc w) 512 /\
  (forall i v, In (i, v) (msr_reads (trace (VmxAllocateInvalidMsrBimap hw w))) ->
               0 <= i < 4096) /\
  (next_alloc w = NULL ->
     msr_reads (trace (VmxAllocateInvalidMsrBimap hw w)) = [] /\
     mem (final_world (VmxAllocateInvalidMsrBimap hw w)) = mem w).
Proof.
  destruct (Z.eq_dec (next_alloc w) NULL) as [Hp|Hp].
  - rewrite prober_alloc_failed by assumption. rewrite Hp.
    unfold final_world. cbn.
    split; [reflexivity|]. split; [reflexivity|].
    split; [intros x _; reflexivity|]. split; [tauto|auto].
  - rewrite prober_succeeded by assumption.
    unfold final_world. cbn [outcome trace allocations msr_reads].
    split; [|split; [reflexivity|split; [|split; [|contradiction]]]].
    + rewrite allocations_probe_events. reflexivity.
    + intros x Hx. apply load8_probed_world_out. exact Hx.
    + intros i v Hin. apply msr_reads_probe_indices in Hin.
      apply list_elem_of_In, elem_of_seqZ in Hin. lia.
Qed.

(** X16: the bitmap depends on the processor alone: two runs of
    VmxAllocateInvalidMsrBimap on the same processor whose allocations
    succeed give the same value to every bit 0..4095, whatever the memory
    held before and wherever the two bitmaps lie. *)
Theorem VmxAllocateInvalidMsrBimap_reproducible w1 w2 :
  next_alloc w1 <> NULL ->
  next_alloc w2 <> NULL ->
  forall i, 0 <= i < 4096 ->
    TestBit (mem (final_world (VmxAllocateInvalidMsrBimap hw w1))) i (next_alloc w1)
    = TestBit (mem (final_world (VmxAllocateInvalidMsrBimap hw w2))) i (next_alloc w2).
Proof.
  intros H1 H2 i Hi.
  rewrite !prober_succeeded by assumption. unfold final_world. cbn [outcome].
  rewrite !TestBit_probed_world by assumption. reflexivity.
Qed.
End Prober.

(** * The further properties at concrete inputs *)

Lemma VmxAllocateVmmStack_behaviour_witness :
  exists w',
    outcome (VmxAllocateVmmStack vmxon_succeeds empty_context (dirty_world 0 [0x20000]))
      = Ret (true, set_VmmStack 0x20000 empty_context) w' /\
    load8 (mem w') 0x20000 = 0 /\
    load8 (mem w') 0x21008 = 0 /\
    load8 (mem w') 0x1FFFF = 0x11.
Proof.
  destruct (VmxAllocateVmmStack_behaviour vmxon_succeeds empty_context
              (dirty_world 0 [0x20000])) as (b & w' & Ho & Hb & _ & _ & _ & Hs).
  destruct (Hs ltac:(discriminate)) as (Hz & Hout & _).
  assert (Hbt : b = true) by (apply Hb; discriminate). rewrite Hbt in Ho.
  exists w'. split; [exact Ho|].
  split; [apply Hz; change (0x20000 <= 0x20000 < 0x20000 + 0x8000); lia|].
  split; [apply Hz; change (0x20000 <= 0x21008 < 0x20000 + 0x8000); lia|].
  apply (Hout 0x1FFFF). left. change (0x1FFFF < 0x20000). lia.
Defined.

Lemma VmxAllocateMsrBitmap_behaviour_witness :
  exists VCpu' w',
    outcome (VmxAllocateMsrBitmap vmxon_succeeds empty_context (dirty_world 0 [0x20000]))
      = Ret (true, VCpu') w' /\
    MsrBitmapVirtualAddress VCpu' = 0x20000 /\
    MsrBitmapPhysicalAddress VCpu' = 0x10000 /\
    load8 (mem w') 0x20FFF = 0 /\
    load8 (mem w') 0x21008 = 0x55.
Proof.
  destruct (VmxAllocateMsrBitmap_behaviour vmxon_succeeds empty_context
              (dirty_world 0 [0x20000])) as (b & v & w' & Ho & Hb & _ & _ & _ & Hs).
  destruct (Hs ltac:(discriminate)) as (Hv & Hz & Hout & _).
  assert (Hbt : b = true) by (apply Hb; discriminate). rewrite Hbt in Ho.
  exists v, w'. split; [exact Ho|].
  split; [rewrite Hv; reflexivity|]. split; [rewrite Hv; reflexivity|].
  split; [apply Hz; change (0x20000 <= 0x20FFF < 0x20000 + 4096); lia|].
  apply (Hout 0x21008). right. change (0x20000 + 4096 <= 0x21008). lia.
Defined.

Lemma VmxAllocateIoBitmaps_success_witness :
  exists VCpu' w',
    outcome (VmxAllocateIoBitmaps vmxon_succeeds empty_context
               (dirty_world 0 [0x20000; 0x30000])) = Ret (true, VCpu') w' /\
    IoBitmapPhysicalAddressB VCpu' = 0x20000 /\
    load8 (mem w') 0x20000 = 0 /\
    load8 (mem w') 0x30000 = 0 /\
    load8 (mem w') 0x21008 = 0x55.
Proof.
  destruct (VmxAllocateIoBitmaps_success vmxon_succeeds empty_context
              (dirty_world 0 [0x20000; 0x30000]))
    as (w' & Ho & Ha & Hb & Hout & _).
  - discriminate.
  - discriminate.
  - eexists _, w'. split; [exact Ho|]. split; [reflexivity|].
    split; [apply Ha; change (0x20000 <= 0x20000 < 0x20000 + 4096); lia|].
    split; [apply Hb; change (0x30000 <= 0x30000 < 0x30000 + 4096); lia|].
    apply (Hout 0x21008).
    + right. change (0x20000 + 4096 <= 0x21008). lia.
    + left. change (0x21008 < 0x30000). lia.
Defined.

Lemma VmxAllocateIoBitmaps_requests_witness :
  allocations (trace (VmxAllocateIoBitmaps vmxon_succeeds empty_context (world_with [])))
    = [(4096, NULL)] /\
  allocations (trace (VmxAllocateIoBitmaps vmxon_succeeds empty_context
                        (dirty_world 0 [0x20000])))
    = [(4096, 0x20000); (4096, NULL)] /\
  load8 (mem (final_world (VmxAllocateIoBitmaps vmxon_succeeds empty_context
                             (dirty_world 0 [0x20000])))) 0x20FFF = 0.
Proof.
  destruct (VmxAllocateIoBitmaps_requests vmxon_succeeds empty_context (world_with []))
    as (_ & _ & HA & _).
  destruct (VmxAllocateIoBitmaps_requests vmxon_succeeds empty_context
              (dirty_world 0 [0x20000])) as (_ & _ & _ & HB).
  destruct (HA eq_refl) as (Hal & _).
  destruct (HB ltac:(discriminate) eq_refl) as (Hal2 & _ & Hz & _).
  split; [exact Hal|]. split; [exact Hal2|].
  apply Hz. change (0x20000 <= 0x20FFF < 0x20000 + 4096). lia.
Defined.

Lemma capability_read_fault_escapes_witness :
  (exists w', outcome (VmxAllocateVmxonRegion no_vmx empty_context (world_with [0x20010]))
              = Raise w') /\
  (exists w', outcome (VmxAllocateVmcsRegion no_vmx empty_context (world_with [0x20010]))
              = Raise w') /\
  allocs (final_world (VmxAllocateVmxonRegion no_vmx empty_context (world_with [0x20010])))
    = [].
Proof.
  destruct (capability_read_fault_escapes no_vmx empty_context (world_with [0x20010]))
    as (Hon & Hcs & Heff).
  split; [apply Hon; split; [discriminate|reflexivity]|].
  split; [apply Hcs; split; [discriminate|reflexivity]|].
  exact (proj1 (Heff ltac:(discriminate) eq_refl)).
Defined.

Lemma VmxAllocateVmcsRegion_result_witness :
  returned (VmxAllocateVmcsRegion vmxon_fails empty_context (world_with [0x20010]))
    = Some true /\
  returned (VmxAllocateVmcsRegion vmxon_fails empty_context (world_with [])) = Some false /\
  logged_errors (trace (VmxAllocateVmcsRegion vmxon_fails empty_context (world_with [])))
    = [("Err, couldn't allocate Buffer for VMCS region", [])].
Proof.
  destruct (VmxAllocateVmcsRegion_result vmxon_fails empty_context (world_with [0x20010]))
    as (_ & _ & Htrue & _).
  destruct (VmxAllocateVmcsRegion_result vmxon_fails empty_context (world_with []))
    as (_ & Hfalse & _ & Hlog & _).
  split; [apply Htrue; split; [discriminate|eexists; reflexivity]|].
  split; [apply Hfalse; reflexivity|].
  exact (proj2 (Hlog eq_refl)).
Defined.

Lemma vmxon_executed_at_most_once_witness :
  vmxon_calls (trace (VmxAllocateVmxonRegion vmxon_succeeds empty_context
                        (world_with [0x20010]))) = [(0x11000, 0)].
Proof.
  exact (proj2 (proj2 (vmxon_executed_at_most_once vmxon_succeeds empty_context
                         (world_with [0x20010]))) _ _ eq_refl).
Defined.

Lemma VmxAllocateVmxonRegion_memory_witness :
  load8 (mem (final_world (VmxAllocateVmxonRegion vmxon_succeeds empty_context
                             (dirty_world 0 [0x20010])))) 0x20FFF = 0 /\
  load8 (mem (final_world (VmxAllocateVmxonRegion vmxon_succeeds empty_context
                             (dirty_world 0 [0x20010])))) 0x21008 = 0 /\
  load8 (mem (final_world (VmxAllocateVmxonRegion vmxon_succeeds empty_context
                             (dirty_world 0 [0x20010])))) 0x20000 = 0xAA /\
  load8 (mem (final_world (VmxAllocateVmxonRegion vmxon_succeeds empty_context
                             (dirty_world 0 [0x20010])))) 0x30000 = 0x77.
Proof.
  destruct (VmxAllocateVmxonRegion_memory vmxon_succeeds empty_context
              (dirty_world 0 [0x20010])) as (Hout & Hin & _).
  - change (4 <= 4096). lia.
  - change (0 < 0x20010). lia.
  - change (0x20010 + (2 * 4096 + 4096) <= 2 ^ 64). lia.
  - split; [|split; [|split]].
    + apply Hin.
      * change (0x20010 <= 0x20FFF < 0x20010 + (2 * 4096 + 4096)). lia.
      * left. change (0x20FFF < 0x21000). lia.
    + apply Hin.
      * change (0x20010 <= 0x21008 < 0x20010 + (2 * 4096 + 4096)). lia.
      * right. change (0x21000 + 8 <= 0x21008). lia.
    + apply (Hout 0x20000). left. change (0x20000 < 0x20010). lia.
    + apply (Hout 0x30000). right. change (0x20010 + (2 * 4096 + 4096) <= 0x30000). lia.
Defined.

Lemma VmxAllocateVmcsRegion_memory_witness :
  load8 (mem (final_world (VmxAllocateVmcsRegion vmxon_succeeds empty_context
                             (dirty_world 0 [0x20010])))) 0x21008 = 0 /\
  load8 (mem (final_world (VmxAllocateVmcsRegion vmxon_succeeds empty_context
                             (dirty_world 0 [0x20010])))) 0x20000 = 0xAA.
Proof.
  destruct (VmxAllocateVmcsRegion_memory vmxon_succeeds empty_context
              (dirty_world 0 [0x20010])) as (Hout & Hin & _).
  - change (4 <= 4096). lia.
  - change (0 < 0x20010). lia.
  - change (0x20010 + (2 * 4096 + 4096) <= 2 ^ 64). lia.
  - split.
    + apply Hin.
      * change (0x20010 <= 0x21008 < 0x20010 + (2 * 4096 + 4096)). lia.
      * right. change (0x21000 + 8 <= 0x21008). lia.
    + apply (Hout 0x20000). left. change (0x20000 < 0x20010). lia.
Defined.

Lemma allocators_write_only_their_fields_witness :
  exists VCpu' w',
    outcome (VmxAllocateIoBitmaps vmxon_succeeds stale_context
               (world_with [0x20000; 0x30000])) = Ret (true, VCpu') w' /\
    IoBitmapVirtualAddressB VCpu' = 0x30000 /\
    set_IoBitmapPhysicalAddressB NULL
      (set_IoBitmapVirtualAddressB 0x5000
         (set_IoBitmapPhysicalAddressA NULL
            (set_IoBitmapVirtualAddressA NULL VCpu'))) = stale_context.
Proof.
  eexists _, _. split; [reflexivity|]. split; [reflexivity|].
  exact (proj2 (proj2 (proj2 (proj2
           (allocators_write_only_their_fields vmxon_succeeds stale_context
              (world_with [0x20000; 0x30000]))))) _ _ _ eq_refl).
Defined.

Lemma vmxon_then_vmcs_witness :
  exists VCpu1 w1 VCpu2 w2,
    outcome (VmxAllocateVmxonRegion vmxon_succeeds empty_context
               (world_with [0x20010; 0x30010])) = Ret (true, VCpu1) w1 /\
    outcome (VmxAllocateVmcsRegion vmxon_succeeds VCpu1 w1) = Ret (true, VCpu2) w2 /\
    VmxonRegionVirtualAddress VCpu2 = 0x20010 /\
    VmcsRegionVirtualAddress VCpu2 = 0x30010 /\
    load64 (mem w2) 0x21000 = 31 /\
    load64 (mem w2) 0x31000 = 31.
Proof.
  eexists _, _, _, _. split; [reflexivity|]. split; [reflexivity|].
  destruct (vmxon_then_vmcs vmxon_succeeds empty_context (world_with [0x20010; 0x30010])
              _ _ _ _ eq_refl eq_refl)
    as (_ & Hva1 & _ & Hva2 & _ & cap & Hcap & Hl1 & Hl2).
  - change (4 <= 4096). lia.
  - change (4 <= 4096). lia.
  - change (0 < 0x20010). lia.
  - change (0x20010 + (2 * 4096 + 4096) <= 2 ^ 64). lia.
  - change (0 < 0x30010). lia.
  - change (0x30010 + (2 * 4096 + 4096) <= 2 ^ 64). lia.
  - left. change (0x20010 + (2 * 4096 + 4096) <= 0x30010). lia.
  - injection Hcap as <-.
    split; [exact Hva1|]. split; [exact Hva2|]. split; [exact Hl1|exact Hl2].
Defined.

Lemma align_page_keeps_aligned_addresses_witness :
  align_page 0x21000 = 0x21000 /\
  exists VCpu' w',
    outcome (VmxAllocateVmxonRegion vmxon_succeeds empty_context (world_with [0x20000]))
      = Ret (true, VCpu') w' /\
    VmxonRegionPhysicalAddress VCpu' = 0x10000.
Proof.
  destruct (align_page_keeps_aligned_addresses vmxon_succeeds empty_context
              (world_with [0x20000])) as (Hfix & _ & Hon & _).
  split.
  - apply Hfix; [lia|reflexivity].
  - eexists _, _. split; [reflexivity|].
    apply (Hon _ _ eq_refl).
    + change (0 <= 0x10000 < 2 ^ 64). lia.
    + reflexivity.
Defined.

Lemma aligned_addresses_share_offset_witness :
  align_page 0x20010 - 0x20010 = align_page 0x10010 - 0x10010 /\
  0 <= align_page 0x20010 - 0x20010 < 4096.
Proof.
  apply aligned_addresses_share_offset.
  - lia.
  - change (0x20010 + 4096 <= 2 ^ 64). lia.
  - lia.
  - change (0x10010 + 4096 <= 2 ^ 64). lia.
  - reflexivity.
Defined.

Lemma VmxAllocateInvalidMsrBimap_effects_witness :
  load8 (mem (final_world (VmxAllocateInvalidMsrBimap no_vmx (dirty_world 0 [0x20000]))))
        0x1FFFF = 0x11 /\
  load8 (mem (final_world (VmxAllocateInvalidMsrBimap no_vmx (dirty_world 0 [0x20000]))))
        0x20FFF = 0xBB /\
  msr_reads (trace (VmxAllocateInvalidMsrBimap no_vmx (dirty_world 0 []))) = [].
Proof.
  destruct (VmxAllocateInvalidMsrBimap_effects no_vmx (dirty_world 0 [0x20000]))
    as (_ & _ & Hout & _).
  destruct (VmxAllocateInvalidMsrBimap_effects no_vmx (dirty_world 0 []))
    as (_ & _ & _ & _ & Hfail).
  split; [|split].
  - apply (Hout 0x1FFFF). left. change (0x1FFFF < 0x20000). lia.
  - apply (Hout 0x20FFF). right. change (0x20000 + 512 <= 0x20FFF). lia.
  - exact (proj1 (Hfail eq_refl)).
Defined.

Lemma VmxAllocateInvalidMsrBimap_reproducible_witness :
  TestBit (mem (final_world (VmxAllocateInvalidMsrBimap vmxon_succeeds
                               (dirty_world 0 [0x20000])))) 0x480 0x20000
  = TestBit (mem (final_world (VmxAllocateInvalidMsrBimap vmxon_succeeds
                                 (world_with [0x30000])))) 0x480 0x30000.
Proof.
  apply (VmxAllocateInvalidMsrBimap_reproducible vmxon_succeeds
           (dirty_world 0 [0x20000]) (world_with [0x30000])).
  - discriminate.
  - discriminate.
  - lia.
Defined.
